(** * The response-judgment pipeline of Clip3/backend/routes.py

    A shallow embedding of [evaluate_response]: the denylist pre-check, the
    single call to the judge model, the validation of its JSON answer and the
    two neutral fall-back verdicts. *)

From Stdlib Require Import ZArith NArith QArith Ascii String List Lia.
From stdpp Require Import base option strings gmap fin_maps.

Local Open Scope string_scope.
Local Open Scope Z_scope.

(** ** Python values

    The values [json.loads] can produce, which are also the values a verdict
    dictionary holds. A [float] keeps the numeral it was read from: the
    pipeline never computes with one. Strings are the UTF-8 bytes of the
    Python [str]. *)

#[local] Set Warnings "-register-all".

Inductive pyobj : Type :=
  | PyNone
  | PyBool (b : bool)
  | PyInt (z : Z)
  | PyFloat (numeral : string)
  | PyStr (s : string)
  | PyList (l : list pyobj)
  | PyDict (d : gmap string pyobj).

(** ** Exceptions

    The classes below [Exception] that can arise in the function or be raised
    by the provider library. [JSONDecodeError] and [UnicodeEncodeError] derive
    from [ValueError]. A [ValueError], a [TypeError] and a [ProviderError]
    carry the text [str(e)] gives. *)

Inductive exn : Type :=
  | JSONDecodeError
  | ValueError (msg : string)
  | UnicodeEncodeError
  | TypeError (msg : string)
  | KeyError (key : string)
  | IndexError
  | AttributeError
  | RecursionError
  | ProviderError (kind : string).

Definition isinstance_ValueError (e : exn) : bool :=
  match e with
  | JSONDecodeError | ValueError _ | UnicodeEncodeError => true
  | _ => false
  end.

Definition isinstance_Exception (e : exn) : bool := true.

Inductive result (A : Type) : Type :=
  | Ret (a : A)
  | Raise (e : exn).

Arguments Ret {A} a.
Arguments Raise {A} e.

Definition result_bind {A B : Type} (m : result A) (k : A -> result B) : result B :=
  match m with
  | Ret a => k a
  | Raise e => Raise e
  end.

(** [try: body except <classes>: handler] on a computation without effects:
    the handler runs only for an exception the clause matches. *)
Definition try_except {A : Type} (body : result A) (clause : exn -> bool)
    (handler : exn -> result A) : result A :=
  match body with
  | Ret a => Ret a
  | Raise e => if clause e then handler e else Raise e
  end.

Notation "'let*' x ':=' m 'in' k" := (result_bind m (fun x => k))
  (at level 10, x name, m at level 100, k at level 200, only parsing).

Definition raise_when (cond : bool) (e : exn) : result unit :=
  if cond then Raise e else Ret tt.

(** ** Strings *)

(** [s.startswith(prefix)] *)
Fixpoint starts_with (prefix s : string) : bool :=
  match prefix, s with
  | EmptyString, _ => true
  | String a prefix', String b s' => if Ascii.eqb a b then starts_with prefix' s' else false
  | String _ _, EmptyString => false
  end.

(** [sub in s] on two strings: [sub] occurs in [s] at some offset. On valid
    UTF-8 an occurrence of bytes is an occurrence of code points. *)
Fixpoint str_in (sub s : string) : bool :=
  if starts_with sub s then true
  else match s with
       | EmptyString => false
       | String _ s' => str_in sub s'
       end.

(** ASCII case folding and ASCII white space, used by the reference runtime
    below. *)
Definition ascii_lower_char (c : ascii) : ascii :=
  let n := nat_of_ascii c in
  if ((65 <=? n) && (n <=? 90))%nat then ascii_of_nat (n + 32) else c.

Fixpoint ascii_lower (s : string) : string :=
  match s with
  | EmptyString => EmptyString
  | String c s' => String (ascii_lower_char c) (ascii_lower s')
  end.

Definition ascii_isspace (c : ascii) : bool :=
  let n := nat_of_ascii c in
  (((9 <=? n) && (n <=? 13)) || ((28 <=? n) && (n <=? 32)))%nat.

Fixpoint lstrip (s : string) : string :=
  match s with
  | String c s' => if ascii_isspace c then lstrip s' else s
  | EmptyString => EmptyString
  end.

Fixpoint rstrip (s : string) : string :=
  match s with
  | EmptyString => EmptyString
  | String c s' =>
      match rstrip s' with
      | EmptyString => if ascii_isspace c then EmptyString else String c EmptyString
      | t => String c t
      end
  end.

Definition ascii_strip (s : string) : string := rstrip (lstrip s).

(** ** Standard output

    [print] encodes its text for standard output, which is UTF-8: a lone
    surrogate (U+D800 to U+DFFF) has no encoding and makes [print] raise
    [UnicodeEncodeError]. In the bytes of a [str] a surrogate is the three
    bytes ED A0 80 to ED BF BF, which UTF-8 proper never contains. What is
    written is not kept; only whether writing raises. *)

Fixpoint encodable (s : string) : bool :=
  match s with
  | EmptyString => true
  | String a rest =>
      match rest with
      | String b _ =>
          if ((nat_of_ascii a =? 237) && (160 <=? nat_of_ascii b)
              && (nat_of_ascii b <=? 191))%nat
          then false else encodable rest
      | EmptyString => true
      end
  end.

(** The bytes 80 to BF continue a character. *)
Definition is_continuation (c : ascii) : bool :=
  ((128 <=? nat_of_ascii c) && (nat_of_ascii c <=? 191))%nat.

Fixpoint take_continuation (s : string) : string :=
  match s with
  | String c rest => if is_continuation c then String c (take_continuation rest) else EmptyString
  | EmptyString => EmptyString
  end.

Fixpoint skip_continuation (s : string) : string :=
  match s with
  | String c rest => if is_continuation c then skip_continuation rest else s
  | EmptyString => EmptyString
  end.

(** [s[:n]]: the first [n] characters, each a byte and the bytes that
    continue it. *)
Fixpoint str_prefix (n : nat) (s : string) : string :=
  match n, s with
  | S n', String c rest =>
      String c (take_continuation rest +:+ str_prefix n' (skip_continuation rest))
  | _, _ => EmptyString
  end.

(** The parts of a formatted line: text written as it is (the literal parts
    and every [str] put in), and parts that [repr] or the interpreter wrote,
    where whatever cannot be printed is escaped. *)
Inductive piece : Type :=
  | Text (s : string)
  | Escaped.

Definition piece_encodable (p : piece) : bool :=
  match p with
  | Text s => encodable s
  | Escaped => true
  end.

(** [print(f"...")] *)
Definition print (line : list piece) : result unit :=
  if forallb piece_encodable line then Ret tt else Raise UnicodeEncodeError.

(** [{v}] in a formatted line: a [str] goes in as it is, any other value
    through its [repr]. *)
Definition shown (v : pyobj) : piece :=
  match v with
  | PyStr s => Text s
  | _ => Escaped
  end.

(** [{e}] in a formatted line: the text of the exception. The built-in
    exceptions raised by the interpreter have texts in ASCII, and a [KeyError]
    shows the [repr] of its key. *)
Definition exn_piece (e : exn) : piece :=
  match e with
  | ValueError msg | TypeError msg | ProviderError msg => Text msg
  | JSONDecodeError | UnicodeEncodeError | KeyError _ | IndexError
  | AttributeError | RecursionError => Escaped
  end.

(** ** Operations on Python values *)

(** [key in container], for a string [key]. A dictionary tests its keys, a
    list compares its elements with [==], a string searches a substring, and
    the other values are not iterable. *)
Definition py_contains (key : string) (container : pyobj) : result bool :=
  match container with
  | PyDict d => Ret (bool_decide (is_Some (d !! key)))
  | PyList l =>
      Ret (existsb (fun x => match x with PyStr s => String.eqb key s | _ => false end) l)
  | PyStr s => Ret (str_in key s)
  | PyNone | PyBool _ | PyInt _ | PyFloat _ =>
      Raise (TypeError "argument is not iterable")
  end.

(** [all(field in container for field in fields)]: the generator stops at the
    first [False], and an exception of [in] leaves [all]. *)
Fixpoint all_in (fields : list string) (container : pyobj) : result bool :=
  match fields with
  | [] => Ret true
  | field :: rest =>
      let* present := py_contains field container in
      if present then all_in rest container else Ret false
  end.

(** [container[key]], for a string [key]. *)
Definition py_getitem (container : pyobj) (key : string) : result pyobj :=
  match container with
  | PyDict d =>
      match d !! key with
      | Some v => Ret v
      | None => Raise (KeyError key)
      end
  | PyList _ | PyStr _ => Raise (TypeError "indices must be integers")
  | PyNone | PyBool _ | PyInt _ | PyFloat _ =>
      Raise (TypeError "object is not subscriptable")
  end.

(** [container[key] = value], for a string [key]. *)
Definition py_setitem (container : pyobj) (key : string) (value : pyobj) : result pyobj :=
  match container with
  | PyDict d => Ret (PyDict (<[key := value]> d))
  | PyList _ => Raise (TypeError "indices must be integers")
  | PyNone | PyBool _ | PyInt _ | PyFloat _ | PyStr _ =>
      Raise (TypeError "object does not support item assignment")
  end.

(** [isinstance(x, int)]: [bool] is a subclass of [int]. *)
Definition isinstance_int (x : pyobj) : bool :=
  match x with
  | PyInt _ | PyBool _ => true
  | _ => false
  end.

(** [isinstance(x, bool)] *)
Definition isinstance_bool (x : pyobj) : bool :=
  match x with
  | PyBool _ => true
  | _ => false
  end.

(** The integer an instance of [int] stands for: [True] is 1 and [False] is
    0. Only read behind [isinstance_int]. *)
Definition int_value (x : pyobj) : Z :=
  match x with
  | PyInt z => z
  | PyBool true => 1
  | _ => 0
  end.

(** ** The provider

    [openai.ChatCompletion.create] returns a completion object or raises. The
    function reads [response.choices[0].message.content] and
    [response.usage.total_tokens]; a completion may lack either, and the
    count is whatever value the completion holds there. *)

Record ChatMessage := { content : option string }.
Record Choice := { message : ChatMessage }.
Record Usage := { total_tokens : pyobj }.
Record ChatCompletion := { choices : list Choice; usage : option Usage }.

Record Request := {
  model : string;
  messages : list (string * string);   (* role, content *)
  max_tokens : Z;
  temperature : Z * Z                  (* numerator, denominator *)
}.

Inductive outcome : Type :=
  | Returned (response : ChatCompletion)
  | Raised (e : exn).

(** The world outside the function: how the provider answers a request given
    the requests it has served, and the requests sent so far. *)
Record World := {
  provider : list Request -> Request -> outcome;
  history : list Request
}.

(** A computation that may call the provider. *)
Definition M (A : Type) : Type := World -> result A * World.

Definition ret {A : Type} (a : A) : M A := fun w => (Ret a, w).

Definition lift {A : Type} (r : result A) : M A := fun w => (r, w).

Definition bind {A B : Type} (m : M A) (k : A -> M B) : M B :=
  fun w =>
    match m w with
    | (Ret a, w') => k a w'
    | (Raise e, w') => (Raise e, w')
    end.

Notation "'let!' x ':=' m 'in' k" := (bind m (fun x => k))
  (at level 10, x name, m at level 100, k at level 200, only parsing).

(** [try: body except <classes>: handler] around a computation with calls. *)
Definition try_exceptM {A : Type} (body : M A) (clause : exn -> bool)
    (handler : exn -> M A) : M A :=
  fun w =>
    match body w with
    | (Ret a, w') => (Ret a, w')
    | (Raise e, w') => if clause e then handler e w' else (Raise e, w')
    end.

Definition ChatCompletion_create (request : Request) : M ChatCompletion :=
  fun w =>
    let w' := {| provider := provider w; history := (history w ++ [request])%list |} in
    match provider w (history w) request with
    | Returned response => (Ret response, w')
    | Raised e => (Raise e, w')
    end.

(** [l[0]] *)
Definition first_item {A : Type} (l : list A) : result A :=
  match l with
  | x :: _ => Ret x
  | [] => Raise IndexError
  end.

(** Attribute access on a field that may be absent. *)
Definition getattr {A : Type} (field : option A) : result A :=
  match field with
  | Some x => Ret x
  | None => Raise AttributeError
  end.

(** ** The judge request *)

(** Writes the double quotes of a text given with back quotes in their
    place. *)
Definition backquote_to_dquote (c : ascii) : ascii :=
  if Ascii.eqb c "`" then ascii_of_nat 34 else c.

Fixpoint dq (s : string) : string :=
  match s with
  | EmptyString => EmptyString
  | String c s' => String (backquote_to_dquote c) (dq s')
  end.

(** The f-string [evaluation_prompt]: the two inputs are embedded verbatim. *)
Definition evaluation_prompt (user_prompt ai_response : string) : string :=
  dq "
Please evaluate the following AI response for quality and accuracy.

User's Original Question: `"
  +:+ user_prompt +:+
  dq "`

AI Response to Evaluate: `"
  +:+ ai_response +:+
  dq "`

Please provide your evaluation as a JSON object with the following structure:
{
    `score`: <integer from 1-5, where 1=poor, 5=excellent>,
    `rationale`: `<brief explanation of the score>`,
    `hallucination_flag`: <boolean, true if response contains factual errors or made-up information>
}

Evaluation criteria:
- Score 5: Excellent - Accurate, helpful, well-structured, directly addresses the question
- Score 4: Good - Mostly accurate and helpful with minor issues
- Score 3: Average - Generally correct but may lack detail or have minor inaccuracies
- Score 2: Below Average - Partially helpful but contains errors or is unclear
- Score 1: Poor - Unhelpful, contains significant errors, or doesn't address the question

CRITICAL: Set hallucination_flag to TRUE if the response contains ANY of the following:
- Made-up product names, models, or brands that don't exist
- False factual claims about real people, places, or events
- Fictional technical specifications presented as real
- Non-existent companies, organizations, or services
- Invented historical dates, statistics, or scientific facts
- Made-up quotes, references, or citations
- Specific technical details about products that don't exist

⚠️ IMPORTANT: Any router/switch model containing `Letort` is FAKE and should be flagged as hallucination.

Examples of DEFINITE hallucinations to flag:
- `Letort 9000`, `Letort 8000`, `Letort 7000`, or ANY `Letort` device
- `GoldBlueRedGreen Router` or similar made-up color combinations
- `FakeRouter9000` or devices with `Fake` in the name
- Any device model with obviously fake naming patterns

Real networking equipment brands include: Cisco, Juniper, Arista, HPE, Dell, Fortinet, Palo Alto Networks, Ubiquiti, Netgear, D-Link, TP-Link, Huawei, ZTE, Nokia, Ericsson.

EVALUATION RULE: If a user asks about configuring ANY `Letort` device, this is a DEFINITE hallucination test case. The response should be flagged as hallucination_flag=true with a low score (1-2) and rationale explaining that the device doesn't exist.

Be especially vigilant about:
1. Brand/model names that sound plausible but may not exist
2. Technical instructions for potentially non-existent devices
3. Specific factual claims that can be verified as false
4. Overly specific details that seem made up

Focus on accuracy, helpfulness, and whether the response contains any hallucinations (made-up facts, false information, or unsupported claims).
".

Definition system_instruction : string :=
  "You are an expert evaluator of AI responses. Provide objective, fair evaluations in the requested JSON format.".

Definition judge_request (user_prompt ai_response : string) : Request :=
  {| model := "gpt-3.5-turbo";
     messages := [("system", system_instruction);
                  ("user", evaluation_prompt user_prompt ai_response)];
     max_tokens := 300;
     temperature := (3, 10) |}.

(** ** The Python runtime

    The library functions the pipeline calls: [str.lower], [str.strip],
    [json.loads] and the [str] of a completion object. [json.loads] returns a
    value or raises: [None] stands for the exception, which is a
    [RecursionError] where [json_loads_too_deep] holds (nesting beyond what
    the interpreter allows) and a [json.JSONDecodeError] otherwise. The
    pipeline is defined and verified over any implementation of them; the one
    fact used about them is that a text made of white space only is not a
    JSON text. [reference_runtime] below is an implementation that computes. *)

Class PyRuntime := {
  str_lower : string -> string;
  str_strip : string -> string;
  json_loads : string -> option pyobj;
  json_loads_too_deep : string -> bool;
  completion_str : ChatCompletion -> string;
  json_loads_blank :
    forall text, text = "" \/ str_strip text = "" -> json_loads text = None
}.

(** ** The verdicts built in place *)

Definition fake_patterns : list string :=
  ["letort"; "goldblueRedgreen"; "fakerouter"; "xyz corp"; "acme router";
   "test device"; "sample router"; "example switch"; "demo router"].

Definition precheck_rationale (pattern : string) : string :=
  "Response contains references to non-existent device '" +:+ pattern
  +:+ "'. This appears to be a fabricated product name that doesn't exist in reality.".

Definition precheck_verdict (pattern : string) : pyobj :=
  PyDict {[ "score" := PyInt 1;
            "rationale" := PyStr (precheck_rationale pattern);
            "hallucination_flag" := PyBool true;
            "tokens" := PyInt 0 ]}.

Definition parse_failure_verdict (evaluation_tokens : pyobj) : pyobj :=
  PyDict {[ "score" := PyInt 3;
            "rationale" := PyStr "Evaluation parsing failed - assigned neutral score";
            "hallucination_flag" := PyBool false;
            "tokens" := evaluation_tokens ]}.

(** The patterns of the last trace (line 179). *)
Definition suspicious_patterns : list string := ["9000"; "letort"; "xyz corp"; "acme"].

(** The truth value of a [bool]. Only read behind [isinstance_bool]. *)
Definition bool_value (x : pyobj) : bool :=
  match x with
  | PyBool b => b
  | _ => false
  end.

Definition unavailable_verdict : pyobj :=
  PyDict {[ "score" := PyInt 3;
            "rationale" := PyStr "Evaluation service unavailable - assigned neutral score";
            "hallucination_flag" := PyBool false;
            "tokens" := PyInt 0 ]}.

Definition required_fields : list string :=
  ["score"; "rationale"; "hallucination_flag"].

Section Judgment.
Context {py : PyRuntime}.

(** The loop over [fake_patterns]: the first pattern whose lower-cased form
    occurs in [combined_text]. *)
Fixpoint first_fake (patterns : list string) (combined_text : string) : option string :=
  match patterns with
  | [] => None
  | pattern :: rest =>
      if str_in (str_lower pattern) combined_text then Some pattern
      else first_fake rest combined_text
  end.

Definition combined_text (user_prompt ai_response : string) : string :=
  str_lower (user_prompt +:+ " " +:+ ai_response).

(** [not evaluation_text or evaluation_text.strip() == ""]; the content of a
    completion may be [None]. *)
Definition is_blank (evaluation_text : option string) : bool :=
  match evaluation_text with
  | None => true
  | Some text => String.eqb text "" || String.eqb (str_strip text) ""
  end.

(** [json.loads(evaluation_text)], reached with a string only. *)
Definition loads (evaluation_text : option string) : result pyobj :=
  match evaluation_text with
  | None => Raise (TypeError "the JSON object must be str, bytes or bytearray")
  | Some text =>
      match json_loads text with
      | Some v => Ret v
      | None => if json_loads_too_deep text then Raise RecursionError
                else Raise JSONDecodeError
      end
  end.

(** [{evaluation_text}] in a formatted line; [None] is written as its name. *)
Definition text_piece (evaluation_text : option string) : piece :=
  match evaluation_text with
  | Some text => Text text
  | None => Escaped
  end.

(** The body of the inner [try] (lines 153 to 183). *)
Definition parse_evaluation (ai_response : string) (evaluation_text : option string)
    (evaluation_tokens : pyobj) : result pyobj :=
  let* _ := raise_when (is_blank evaluation_text)
              (ValueError "Empty evaluation response from OpenAI") in
  let* evaluation_data := loads evaluation_text in
  let* complete := all_in required_fields evaluation_data in
  let* _ := raise_when (negb complete)
              (ValueError "Missing required fields in evaluation response") in
  let* score := py_getitem evaluation_data "score" in
  let* _ := raise_when
              (negb (isinstance_int score)
               || negb ((1 <=? int_value score) && (int_value score <=? 5)))
              (ValueError "Score must be an integer between 1 and 5") in
  let* flag := py_getitem evaluation_data "hallucination_flag" in
  let* _ := raise_when (negb (isinstance_bool flag))
              (ValueError "Hallucination flag must be a boolean") in
  let* evaluation_data := py_setitem evaluation_data "tokens" evaluation_tokens in
  let* _ := print [Text "Successfully parsed evaluation: "; Escaped] in
  let* flag := py_getitem evaluation_data "hallucination_flag" in
  let* _ :=
    if bool_value flag then
      let* rationale := py_getitem evaluation_data "rationale" in
      print [Text "🚨 HALLUCINATION DETECTED: "; shown rationale]
    else Ret tt in
  let* score := py_getitem evaluation_data "score" in
  let* _ :=
    if (4 <=? int_value score)
       && existsb (fun pattern => str_in pattern (str_lower ai_response))
            suspicious_patterns
    then
      let* _ := print [Text "⚠️  HIGH SCORE + SUSPICIOUS PATTERN: Score="; Escaped;
                       Text ", Hallucination="; Escaped] in
      print [Text "   Response snippet: "; Text (str_prefix 100 ai_response); Text "..."]
    else Ret tt in
  Ret evaluation_data.

(** [except (json.JSONDecodeError, ValueError)] *)
Definition parse_error_clause (e : exn) : bool :=
  match e with
  | JSONDecodeError => true
  | _ => isinstance_ValueError e
  end.

(** The handler of the inner [try] (lines 185 to 194). The name
    [evaluation_tokens] is always bound where it runs, so the verdict carries
    it. *)
Definition parse_failure (evaluation_text : option string) (evaluation_tokens : pyobj)
    (e : exn) : result pyobj :=
  let* _ := print [Text "Error parsing evaluation response: "; exn_piece e] in
  let* _ := print [Text "Raw evaluation text: '"; text_piece evaluation_text; Text "'"] in
  Ret (parse_failure_verdict evaluation_tokens).

(** The handler of the outer [try] (lines 196 to 205); the second line also
    writes the name of the exception's class. *)
Definition unavailable (e : exn) : result pyobj :=
  let* _ := print [Text "Error during evaluation: "; exn_piece e] in
  let* _ := print [Text "Full error details: "; Escaped; Text ": "; exn_piece e] in
  Ret unavailable_verdict.

(** [evaluate_response] (lines 48 to 205). *)
Definition evaluate_response (user_prompt ai_response : string) : M pyobj :=
  match first_fake fake_patterns (combined_text user_prompt ai_response) with
  | Some pattern =>
      let! _ := lift (print [Text "🚨 PRE-CHECK HALLUCINATION DETECTED: Found '";
                             Text pattern; Text "' in text"]) in
      ret (precheck_verdict pattern)
  | None =>
      try_exceptM
        (let! _ := lift (print [Text "Starting evaluation for prompt: ";
                                Text (str_prefix 50 user_prompt); Text "..."]) in
         let! _ := lift (print [Text "Response to evaluate: ";
                                Text (str_prefix 100 ai_response); Text "..."]) in
         let! response := ChatCompletion_create (judge_request user_prompt ai_response) in
         let! _ := lift (print [Text "Raw OpenAI response: ";
                                Text (completion_str response)]) in
         let! choice := lift (first_item (choices response)) in
         let evaluation_text := content (message choice) in
         let! billed := lift (getattr (usage response)) in
         let evaluation_tokens := total_tokens billed in
         let! _ := lift (print [Text "Evaluation text received: ";
                                text_piece evaluation_text]) in
         let! _ := lift (print [Text "Evaluation tokens used: ";
                                shown evaluation_tokens]) in
         lift (try_except (parse_evaluation ai_response evaluation_text evaluation_tokens)
                 parse_error_clause
                 (parse_failure evaluation_text evaluation_tokens)))
        isinstance_Exception
        (fun e => lift (unavailable e))
  end.

End Judgment.

(** ** A reference runtime

    ASCII case folding, ASCII stripping and a decoder for JSON texts
    (RFC 8259, with the [NaN] and [Infinity] numerals [json.loads] also reads)
    that has no limit on nesting; a completion is shown by a fixed text. The
    examples below are evaluated with it. *)

Module Json.

Definition is_ws (c : ascii) : bool :=
  let n := nat_of_ascii c in
  ((n =? 32) || (n =? 9) || (n =? 10) || (n =? 13))%nat.

Fixpoint skip_ws (s : string) : string :=
  match s with
  | String c s' => if is_ws c then skip_ws s' else s
  | EmptyString => EmptyString
  end.

Definition is_digit (c : ascii) : bool :=
  let n := nat_of_ascii c in ((48 <=? n) && (n <=? 57))%nat.

Definition digit_value (c : ascii) : Z := Z.of_nat (nat_of_ascii c) - 48.

(** The longest prefix of digits, and what follows it. *)
Fixpoint span_digits (s : string) : string * string :=
  match s with
  | String c s' =>
      if is_digit c then let (ds, rest) := span_digits s' in (String c ds, rest)
      else (EmptyString, s)
  | EmptyString => (EmptyString, EmptyString)
  end.

Fixpoint digits_value (acc : Z) (ds : string) : Z :=
  match ds with
  | String c ds' => digits_value (10 * acc + digit_value c) ds'
  | EmptyString => acc
  end.

Fixpoint strip_prefix (prefix s : string) : option string :=
  match prefix, s with
  | EmptyString, _ => Some s
  | String a prefix', String b s' => if Ascii.eqb a b then strip_prefix prefix' s' else None
  | String _ _, EmptyString => None
  end.

(** [.digits], when present. *)
Definition fraction (s : string) : string * string :=
  match s with
  | String c s' =>
      if Ascii.eqb c "." then
        match span_digits s' with
        | (EmptyString, _) => (EmptyString, s)
        | (ds, rest) => (String c ds, rest)
        end
      else (EmptyString, s)
  | EmptyString => (EmptyString, s)
  end.

(** [e], an optional sign and digits, when present. *)
Definition exponent (s : string) : string * string :=
  match s with
  | String c s' =>
      if Ascii.eqb c "e" || Ascii.eqb c "E" then
        let (sign, s'') :=
          match s' with
          | String d t => if Ascii.eqb d "+" || Ascii.eqb d "-"
                          then (String d EmptyString, t) else (EmptyString, s')
          | EmptyString => (EmptyString, s')
          end in
        match span_digits s'' with
        | (EmptyString, _) => (EmptyString, s)
        | (ds, rest) => (String c (sign +:+ ds), rest)
        end
      else (EmptyString, s)
  | EmptyString => (EmptyString, s)
  end.

(** A numeral: an integer part without a leading zero, then a fraction and an
    exponent. Without either it is an [int], otherwise a [float]. *)
Definition number (s : string) : option (pyobj * string) :=
  let (sign, s1) :=
    match s with
    | String c t => if Ascii.eqb c "-" then (true, t) else (false, s)
    | EmptyString => (false, s)
    end in
  let (ds, s2) := span_digits s1 in
  let split :=
    match ds with
    | EmptyString => None
    | String c more =>
        if Ascii.eqb c "0" then Some (String c EmptyString, more +:+ s2) else Some (ds, s2)
    end in
  match split with
  | None => None
  | Some (int_part, s3) =>
      let (frac, s4) := fraction s3 in
      let (exp, s5) := exponent s4 in
      match frac, exp with
      | EmptyString, EmptyString =>
          let n := digits_value 0 int_part in
          Some (PyInt (if sign then - n else n), s5)
      | _, _ =>
          Some (PyFloat ((if sign then "-" else "") +:+ int_part +:+ frac +:+ exp), s5)
      end
  end.

Definition hex_value (c : ascii) : option N :=
  let n := N.of_nat (nat_of_ascii c) in
  if ((48 <=? n) && (n <=? 57))%N then Some (n - 48)%N
  else if ((65 <=? n) && (n <=? 70))%N then Some (n - 55)%N
  else if ((97 <=? n) && (n <=? 102))%N then Some (n - 87)%N
  else None.

Definition hex4 (a b c d : ascii) : option N :=
  match hex_value a, hex_value b, hex_value c, hex_value d with
  | Some x, Some y, Some z, Some w => Some (((x * 16 + y) * 16 + z) * 16 + w)%N
  | _, _, _, _ => None
  end.

Definition byte (n : N) : ascii := ascii_of_N n.

(** The UTF-8 bytes of a code point. *)
Definition utf8 (cp : N) : string :=
  if (cp <? 128)%N then String (byte cp) EmptyString
  else if (cp <? 2048)%N then
    String (byte (192 + cp / 64)) (String (byte (128 + cp mod 64)) EmptyString)
  else if (cp <? 65536)%N then
    String (byte (224 + cp / 4096))
      (String (byte (128 + (cp / 64) mod 64)) (String (byte (128 + cp mod 64)) EmptyString))
  else
    String (byte (240 + cp / 262144))
      (String (byte (128 + (cp / 4096) mod 64))
         (String (byte (128 + (cp / 64) mod 64)) (String (byte (128 + cp mod 64)) EmptyString))).

Definition simple_escape (c : ascii) : option ascii :=
  if Ascii.eqb c (ascii_of_nat 34) then Some c
  else if Ascii.eqb c "\" then Some c
  else if Ascii.eqb c "/" then Some c
  else if Ascii.eqb c "b" then Some (ascii_of_nat 8)
  else if Ascii.eqb c "f" then Some (ascii_of_nat 12)
  else if Ascii.eqb c "n" then Some (ascii_of_nat 10)
  else if Ascii.eqb c "r" then Some (ascii_of_nat 13)
  else if Ascii.eqb c "t" then Some (ascii_of_nat 9)
  else None.

(** The characters of a string after its opening quote, up to the closing
    one. Control characters are refused, as in strict decoding. *)
Fixpoint chars (s : string) : option (string * string) :=
  match s with
  | EmptyString => None
  | String c s' =>
      if Ascii.eqb c (ascii_of_nat 34) then Some (EmptyString, s')
      else if (nat_of_ascii c <? 32)%nat then None
      else if Ascii.eqb c "\" then
        match s' with
        | String e t =>
            if Ascii.eqb e "u" then
              match t with
              | String h1 (String h2 (String h3 (String h4 t'))) =>
                  match hex4 h1 h2 h3 h4 with
                  | None => None
                  | Some hi =>
                      let pair :=
                        match t' with
                        | String b (String u (String l1 (String l2 (String l3 (String l4 t''))))) =>
                            if Ascii.eqb b "\" && Ascii.eqb u "u"
                               && (55296 <=? hi)%N && (hi <? 56320)%N then
                              match hex4 l1 l2 l3 l4 with
                              | Some lo =>
                                  if ((56320 <=? lo) && (lo <? 57344))%N
                                  then Some (65536 + (hi - 55296) * 1024 + (lo - 56320))%N
                                  else None
                              | None => None
                              end
                            else None
                        | _ => None
                        end in
                      match pair, t' with
                      | Some cp, String _ (String _ (String _ (String _ (String _ (String _ t''))))) =>
                          match chars t'' with
                          | Some (str, rest) => Some (utf8 cp +:+ str, rest)
                          | None => None
                          end
                      | _, _ =>
                          match chars t' with
                          | Some (str, rest) => Some (utf8 hi +:+ str, rest)
                          | None => None
                          end
                      end
                  end
              | _ => None
              end
            else
              match simple_escape e with
              | Some x =>
                  match chars t with
                  | Some (str, rest) => Some (String x str, rest)
                  | None => None
                  end
              | None => None
              end
        | EmptyString => None
        end
      else
        match chars s' with
        | Some (str, rest) => Some (String c str, rest)
        | None => None
        end
  end.

Definition literal (name : string) (v : pyobj) (s : string) : option (pyobj * string) :=
  match strip_prefix name s with
  | Some rest => Some (v, rest)
  | None => None
  end.

(** One value at the head of [s]; [elements] and [members] continue an array
    and an object at their next item. Every call spends one unit of [fuel]. *)
Fixpoint value (fuel : nat) (s : string) : option (pyobj * string) :=
  match fuel with
  | O => None
  | S fuel' =>
      match s with
      | EmptyString => None
      | String c s' =>
          if Ascii.eqb c (ascii_of_nat 34) then
            match chars s' with
            | Some (str, rest) => Some (PyStr str, rest)
            | None => None
            end
          else if Ascii.eqb c "{" then
            match skip_ws s' with
            | String d rest =>
                if Ascii.eqb d "}" then Some (PyDict ∅, rest)
                else members fuel' ∅ (String d rest)
            | EmptyString => None
            end
          else if Ascii.eqb c "[" then
            match skip_ws s' with
            | String d rest =>
                if Ascii.eqb d "]" then Some (PyList [], rest)
                else elements fuel' [] (String d rest)
            | EmptyString => None
            end
          else if Ascii.eqb c "n" then literal "null" PyNone s
          else if Ascii.eqb c "t" then literal "true" (PyBool true) s
          else if Ascii.eqb c "f" then literal "false" (PyBool false) s
          else if Ascii.eqb c "N" then literal "NaN" (PyFloat "nan") s
          else if Ascii.eqb c "I" then literal "Infinity" (PyFloat "inf") s
          else if Ascii.eqb c "-" && starts_with "-Infinity" s
            then literal "-Infinity" (PyFloat "-inf") s
          else number s
      end
  end
with elements (fuel : nat) (seen : list pyobj) (s : string) : option (pyobj * string) :=
  match fuel with
  | O => None
  | S fuel' =>
      match value fuel' s with
      | None => None
      | Some (v, rest) =>
          match skip_ws rest with
          | String c rest' =>
              if Ascii.eqb c "]" then Some (PyList (rev (v :: seen)), rest')
              else if Ascii.eqb c "," then elements fuel' (v :: seen) (skip_ws rest')
              else None
          | EmptyString => None
          end
      end
  end
with members (fuel : nat) (seen : gmap string pyobj) (s : string) : option (pyobj * string) :=
  match fuel with
  | O => None
  | S fuel' =>
      match s with
      | EmptyString => None
      | String q s' =>
          if negb (Ascii.eqb q (ascii_of_nat 34)) then None
          else
            match chars s' with
            | None => None
            | Some (key, rest) =>
                match skip_ws rest with
                | String c rest' =>
                    if negb (Ascii.eqb c ":") then None
                    else
                      match value fuel' (skip_ws rest') with
                      | None => None
                      | Some (v, rest'') =>
                          match skip_ws rest'' with
                          | String d more =>
                              if Ascii.eqb d "}" then Some (PyDict (<[key := v]> seen), more)
                              else if Ascii.eqb d ","
                                then members fuel' (<[key := v]> seen) (skip_ws more)
                              else None
                          | EmptyString => None
                          end
                      end
                | EmptyString => None
                end
            end
      end
  end.

(** [json.loads] on a whole text: one value between optional white space. *)
Definition decode (s : string) : option pyobj :=
  match value (2 + 2 * String.length s) (skip_ws s) with
  | Some (v, rest) =>
      match skip_ws rest with
      | EmptyString => Some v
      | String _ _ => None
      end
  | None => None
  end.

End Json.

(** The runtime of the examples. Its one proof obligation: a text of white
    space only is left by [lstrip] empty, so the decoder either runs out of
    text or meets a character that starts no JSON value. *)
Program Definition reference_runtime : PyRuntime :=
  {| str_lower := ascii_lower; str_strip := ascii_strip; json_loads := Json.decode;
     json_loads_too_deep := fun _ => false;
     completion_str := fun _ => "<OpenAIObject chat.completion>" |}.
Next Obligation.
  intros text H.
  assert (Hr : forall s, rstrip s = "" -> lstrip s = "").
  { induction s as [|c s IH]; [done |]. simpl.
    destruct (rstrip s); [| done].
    destruct (ascii_isspace c); [auto | done]. }
  assert (Hll : forall s, lstrip (lstrip s) = lstrip s).
  { induction s as [|c s IH]; [done |]. simpl.
    destruct (ascii_isspace c) eqn:Hc; [done |]. simpl. by rewrite Hc. }
  assert (Hv : forall fuel c rest,
             ascii_isspace c = true -> Json.value (S fuel) (String c rest) = None).
  { intros fuel c rest Hc.
    destruct c as [[] [] [] [] [] [] [] []]; vm_compute in Hc; try discriminate Hc;
      reflexivity. }
  assert (Hl : lstrip text = "").
  { destruct H as [->|H]; [done |]. apply Hr in H. by rewrite Hll in H. }
  clear H. unfold Json.decode.
  generalize (2 * String.length text)%nat. intros fuel.
  change (2 + fuel)%nat with (S (S fuel)).
  induction text as [|c text IH]; [done |].
  simpl in Hl. destruct (ascii_isspace c) eqn:Hc; [| done].
  cbn [Json.skip_ws]. destruct (Json.is_ws c); [auto |].
  by rewrite Hv.
Qed.

(** ** Vocabulary of the statements *)

(** The world after one more request went out. *)
Definition sent (w : World) (request : Request) : World :=
  {| provider := provider w; history := (history w ++ [request])%list |}.

(** Both traces before the call (lines 128 and 129) can be written. *)
Definition printable_call (user_prompt ai_response : string) : bool :=
  encodable (str_prefix 50 user_prompt) && encodable (str_prefix 100 ai_response).

(** The text of [e] can be written. *)
Definition exn_printable (e : exn) : bool := piece_encodable (exn_piece e).

(** The traces of a received completion (lines 142, 147 and 148) can be
    written. *)
Definition printable_completion {py : PyRuntime} (response : ChatCompletion)
    (text : option string) (tokens : pyobj) : bool :=
  encodable (completion_str response)
  && piece_encodable (text_piece text) && piece_encodable (shown tokens).

(** What the code derives from the outcome of the judge call, once the two
    traces before the call are written: read off the body of the outer [try]
    and the two handlers; [evaluate_response_unfold] ties it to the code. *)
Definition judge_result {py : PyRuntime} (ai_response : string) (o : outcome)
    : result pyobj :=
  match o with
  | Raised e => if exn_printable e then Ret unavailable_verdict else Raise UnicodeEncodeError
  | Returned response =>
      match choices response, usage response with
      | choice :: _, Some us =>
          let text := content (message choice) in
          if printable_completion response text (total_tokens us) then
            match parse_evaluation ai_response text (total_tokens us) with
            | Ret v => Ret v
            | Raise e =>
                if parse_error_clause e then Ret (parse_failure_verdict (total_tokens us))
                else Ret unavailable_verdict
            end
          else Ret unavailable_verdict
      | _, _ => Ret unavailable_verdict
      end
  end.

(** A completion that carries a text and a token count. *)
Definition completion (text : option string) (tokens : pyobj) : ChatCompletion :=
  {| choices := [ {| message := {| content := text |} |} ];
     usage := Some {| total_tokens := tokens |} |}.

(** A world whose provider always answers with [o] and has served nothing. *)
Definition world_answering (o : outcome) : World :=
  {| provider := fun _ _ => o; history := [] |}.

(** [isinstance(score, int) and 1 <= score <= 5], the check the code negates. *)
Definition score_in_range (score : pyobj) : bool :=
  isinstance_int score && (1 <=? int_value score) && (int_value score <=? 5).

(** The JSON values that are neither object, array nor string. *)
Definition is_scalar (v : pyobj) : bool :=
  match v with
  | PyNone | PyBool _ | PyInt _ | PyFloat _ => true
  | PyStr _ | PyList _ | PyDict _ => false
  end.

(** [sub] occurs somewhere in [s]. *)
Definition occurs_in (sub s : string) : Prop :=
  exists before after, s = before +:+ sub +:+ after.

(** The lower-cased combination of the two inputs contains a denylisted
    pattern, compared without regard to case. *)
Definition denylisted {py : PyRuntime} (user_prompt ai_response : string) : Prop :=
  exists pattern, In pattern fake_patterns /\
    occurs_in (str_lower pattern) (combined_text user_prompt ai_response).

(** No denylisted pattern occurs in it. *)
Definition clean {py : PyRuntime} (user_prompt ai_response : string) : Prop :=
  forall pattern, In pattern fake_patterns ->
    ~ occurs_in (str_lower pattern) (combined_text user_prompt ai_response).

(** [pattern] is the first entry of the denylist that occurs in the lower-cased
    combination. *)
Definition first_match {py : PyRuntime} (user_prompt ai_response pattern : string) : Prop :=
  exists before after,
    fake_patterns = (before ++ pattern :: after)%list /\
    occurs_in (str_lower pattern) (combined_text user_prompt ai_response) /\
    forall q, In q before ->
      ~ occurs_in (str_lower q) (combined_text user_prompt ai_response).

(** [verdict[key]], when the verdict is a dictionary holding [key]. *)
Definition field (key : string) (verdict : pyobj) : option pyobj :=
  match verdict with
  | PyDict d => d !! key
  | _ => None
  end.

(** The provider answered the judge request of this call with a completion
    carrying [text] and a usage record [us]. *)
Definition judge_returned (w : World) (user_prompt ai_response : string)
    (text : option string) (us : Usage) : Prop :=
  exists response choice rest,
    provider w (history w) (judge_request user_prompt ai_response) = Returned response /\
    choices response = choice :: rest /\
    content (message choice) = text /\
    usage response = Some us.

(** The provider raised [e] on the judge request of this call. *)
Definition judge_raised (w : World) (user_prompt ai_response : string) (e : exn) : Prop :=
  provider w (history w) (judge_request user_prompt ai_response) = Raised e.

(** The provider answered the judge request of this call with [response],
    whose first choice carries [text] and whose usage record is [us]. *)
Definition judge_answered (w : World) (user_prompt ai_response : string)
    (response : ChatCompletion) (text : option string) (us : Usage) : Prop :=
  provider w (history w) (judge_request user_prompt ai_response) = Returned response /\
  (exists choice rest,
     choices response = choice :: rest /\ content (message choice) = text) /\
  usage response = Some us.

(** The trace of line 181 is written, or not reached. *)
Definition snippet_traced {py : PyRuntime} (ai_response : string) (score : pyobj) : bool :=
  negb ((4 <=? int_value score)
        && existsb (fun pattern => str_in pattern (str_lower ai_response))
             suspicious_patterns)
  || encodable (str_prefix 100 ai_response).

(** The trace of line 176 is written, or not reached: the flag is false, or
    the rationale can be written. *)
Definition rationale_traced (rationale : pyobj) (flag : bool) : bool :=
  negb flag || piece_encodable (shown rationale).

(** ** Sample interactions *)

Definition letort_prompt : string := "How do I configure a Letort 9000 router?".
Definition ospf_prompt : string := "What is OSPF?".
Definition ospf_answer : string := "OSPF is a link-state routing protocol.".

(** A judge answering with [text] and billing [tokens]. *)
Definition judge_saying (text : string) (tokens : Z) : World :=
  world_answering (Returned (completion (Some text) (PyInt tokens))).

(** A lone surrogate, U+D800, in the bytes of a [str]. *)
Definition lone_surrogate : string :=
  String (ascii_of_nat 237) (String (ascii_of_nat 160) (String (ascii_of_nat 128) "")).

Definition surrogate_prompt : string := "What is " +:+ lone_surrogate +:+ "?".

(** A well-formed verdict whose rationale is a lone surrogate, written with
    its JSON escape. *)
Definition surrogate_rationale_text : string :=
  dq "{`score`:1,`rationale`:`\ud800`,`hallucination_flag`:true}".

Definition surrogate_rationale_object : gmap string pyobj :=
  {[ "score" := PyInt 1;
     "rationale" := PyStr lone_surrogate;
     "hallucination_flag" := PyBool true ]}.

Definition surrogate_boolean_text : string :=
  dq "{`score`:true,`rationale`:`\ud800`,`hallucination_flag`:true}".

Definition surrogate_boolean_object : gmap string pyobj :=
  {[ "score" := PyBool true;
     "rationale" := PyStr lone_surrogate;
     "hallucination_flag" := PyBool true ]}.

(** A provider failing with a text that cannot be written. *)
Definition failing_unprintably : World :=
  world_answering (Raised (ProviderError lone_surrogate)).

Definition well_formed_text : string :=
  dq "{`score`:5,`rationale`:`Accurate and complete`,`hallucination_flag`:false}".

Definition well_formed_object : gmap string pyobj :=
  {[ "score" := PyInt 5;
     "rationale" := PyStr "Accurate and complete";
     "hallucination_flag" := PyBool false ]}.

Definition empty_rationale_text : string :=
  dq "{`score`:5,`rationale`:``,`hallucination_flag`:false}".

Definition boolean_score_text : string :=
  dq "{`score`:true,`rationale`:`Looks fine`,`hallucination_flag`:false}".

Definition boolean_score_object : gmap string pyobj :=
  {[ "score" := PyBool true;
     "rationale" := PyStr "Looks fine";
     "hallucination_flag" := PyBool false ]}.

Definition empty_rationale_object : gmap string pyobj :=
  {[ "score" := PyInt 5;
     "rationale" := PyStr "";
     "hallucination_flag" := PyBool false ]}.

(** A judge scoring [true] in a completion that holds no token count. *)
Definition boolean_unbilled : World :=
  world_answering (Returned (completion (Some boolean_score_text) PyNone)).

(** The same answer after another request was served. *)
Definition later_world : World :=
  {| provider := fun _ _ => Returned (completion (Some well_formed_text) (PyInt 120));
     history := [judge_request letort_prompt ospf_answer] |}.

(** A provider that times out. *)
Definition timing_out : World := world_answering (Raised (ProviderError "Timeout")).

(** ** Vocabulary for further properties of [evaluate_response] *)

(** The JSON array [v] has the string [name] among its elements, or the JSON
    string [v] has it as a substring: what [name in v] tests on them. *)
Definition names_field (v : pyobj) (name : string) : Prop :=
  match v with
  | PyList l => In (PyStr name) l
  | PyStr s => occurs_in name s
  | _ => False
  end.

(** A JSON array or string. *)
Definition is_sequence (v : pyobj) : bool :=
  match v with
  | PyList _ | PyStr _ => true
  | _ => false
  end.

Definition array_of_names_text : string :=
  dq "[`score`, `rationale`, `hallucination_flag`]".

Definition extra_keys_text : string :=
  dq "{`score`:4,`rationale`:`Mostly right`,`hallucination_flag`:false,`confidence`:`high`,`tokens`:1}".

Definition extra_keys_object : gmap string pyobj :=
  {[ "score" := PyInt 4;
     "rationale" := PyStr "Mostly right";
     "hallucination_flag" := PyBool false;
     "confidence" := PyStr "high";
     "tokens" := PyInt 1 ]}.

(** A provider whose completion has no choices. *)
Definition no_choices : World :=
  world_answering
    (Returned {| choices := []; usage := Some {| total_tokens := PyInt 9 |} |}).

(** ** The chat endpoint

    [chat_with_ai] (lines 207 to 291): the completion for the user, its
    sentiment, the judgment, the row in [chat_logs] and the reply. *)

(** A [float] that is a number is the rational it stands for; [TextBlob]
    polarities are such floats. *)
Definition float : Type := Q.

Module ChatRequest.
Record t := { user_id : string; prompt : string }.
End ChatRequest.

Module JudgmentMetadata.
Record t := {
  score : Z;
  rationale : string;
  hallucination_flag : bool;
  tokens_used : Z
}.
End JudgmentMetadata.

Module ChatResponse.
Record t := {
  response : string;
  tokens : Z;
  sentiment : float;
  judgment : JudgmentMetadata.t
}.
End ChatResponse.

(** The columns of [models.ChatLog] the endpoint fills; [id] and [created_at]
    come from their defaults. [response] is nullable. *)
Module ChatLog.
Record t := {
  user_id : string;
  prompt : string;
  response : option string;
  usage_tokens : pyobj;
  sentiment_score : float;
  judgment_score : pyobj;
  judgment_rationale : pyobj;
  hallucination_flag : pyobj;
  judgment_tokens : pyobj;
  judgment_data : pyobj
}.
End ChatLog.

(** The libraries around the endpoint: [TextBlob(text).sentiment.polarity],
    the validation [JudgmentMetadata(...)] runs on its four arguments, the
    validation of the [tokens: int] field of [ChatResponse], and [str(e)] on
    an exception. The one fact used about the validations is that an [int], a
    [str], a [bool] and an [int] are taken as they are. *)
Class WebRuntime := {
  TextBlob_polarity : option string -> result float;
  JudgmentMetadata_init : pyobj -> pyobj -> pyobj -> pyobj -> result JudgmentMetadata.t;
  int_field : pyobj -> result Z;
  exn_str : exn -> string;
  int_field_typed : forall n : Z, int_field (PyInt n) = Ret n;
  JudgmentMetadata_init_typed :
    forall (score : Z) (rationale : string) (flag : bool) (tokens : Z),
      JudgmentMetadata_init (PyInt score) (PyStr rationale) (PyBool flag) (PyInt tokens)
      = Ret {| JudgmentMetadata.score := score;
               JudgmentMetadata.rationale := rationale;
               JudgmentMetadata.hallucination_flag := flag;
               JudgmentMetadata.tokens_used := tokens |}
}.

(** The table [chat_logs] and how [db.commit()] fares for a new row, given the
    rows stored. *)
Record Database := {
  rows : list ChatLog.t;
  commit_error : list ChatLog.t -> ChatLog.t -> option exn
}.

(** What the endpoint runs against: the configured [openai.api_key], the
    provider and the database session. *)
Record Server := {
  api_key : option string;
  openai : World;
  db : Database
}.

(** How a request ends: the body of a 200, an [HTTPException], or another
    exception that leaves the endpoint. *)
Inductive reply : Type :=
  | Ok (body : ChatResponse.t)
  | HTTPException (status_code : Z) (detail : string)
  | Uncaught (e : exn).

(** A computation of the endpoint. *)
Definition H (A : Type) : Type := Server -> result A * Server.

Definition hbind {A B : Type} (m : H A) (k : A -> H B) : H B :=
  fun s =>
    match m s with
    | (Ret a, s') => k a s'
    | (Raise e, s') => (Raise e, s')
    end.

Notation "'let+' x ':=' m 'in' k" := (hbind m (fun x => k))
  (at level 10, x name, m at level 100, k at level 200, only parsing).

Definition pure {A : Type} (r : result A) : H A := fun s => (r, s).

(** A computation that only talks to the provider. *)
Definition on_openai {A : Type} (m : M A) : H A :=
  fun s =>
    let (r, w') := m (openai s) in
    (r, {| api_key := api_key s; openai := w'; db := db s |}).

(** [db.add(chat_log); db.commit()] *)
Definition add_and_commit (chat_log : ChatLog.t) : H unit :=
  fun s =>
    match commit_error (db s) (rows (db s)) chat_log with
    | Some e => (Raise e, s)
    | None =>
        (Ret tt,
         {| api_key := api_key s; openai := openai s;
            db := {| rows := (rows (db s) ++ [chat_log])%list;
                     commit_error := commit_error (db s) |} |})
    end.

(** [not openai.api_key] *)
Definition key_missing (key : option string) : bool :=
  match key with
  | None => true
  | Some k => String.eqb k ""
  end.

Definition chat_request (prompt : string) : Request :=
  {| model := "gpt-3.5-turbo";
     messages := [("user", prompt)];
     max_tokens := 1000;
     temperature := (7, 10) |}.

Section Endpoint.
Context {py : PyRuntime} {web : WebRuntime}.

(** [evaluate_response(request.prompt, ai_response)]: with [None] for the
    response the concatenation on line 65 raises. *)
Definition judge (prompt : string) (ai_response : option string) : H pyobj :=
  match ai_response with
  | Some text => on_openai (evaluate_response prompt text)
  | None => pure (Raise (TypeError "can only concatenate str to str"))
  end.

(** The [response: str] field of [ChatResponse]. *)
Definition response_field (ai_response : option string) : result string :=
  match ai_response with
  | Some text => Ret text
  | None => Raise (ValueError "none is not an allowed value")
  end.

(** The body of the [try] (lines 238 to 286). *)
Definition chat_body (request : ChatRequest.t) : H ChatResponse.t :=
  let+ response :=
    on_openai (ChatCompletion_create (chat_request (ChatRequest.prompt request))) in
  let+ choice := pure (first_item (choices response)) in
  let ai_response := content (message choice) in
  let+ billed := pure (getattr (usage response)) in
  let total_tokens := total_tokens billed in
  let+ sentiment_polarity := pure (TextBlob_polarity ai_response) in
  let+ judgment_data := judge (ChatRequest.prompt request) ai_response in
  let+ score := pure (py_getitem judgment_data "score") in
  let+ rationale := pure (py_getitem judgment_data "rationale") in
  let+ flag := pure (py_getitem judgment_data "hallucination_flag") in
  let+ tokens := pure (py_getitem judgment_data "tokens") in
  let chat_log :=
    {| ChatLog.user_id := ChatRequest.user_id request;
       ChatLog.prompt := ChatRequest.prompt request;
       ChatLog.response := ai_response;
       ChatLog.usage_tokens := total_tokens;
       ChatLog.sentiment_score := sentiment_polarity;
       ChatLog.judgment_score := score;
       ChatLog.judgment_rationale := rationale;
       ChatLog.hallucination_flag := flag;
       ChatLog.judgment_tokens := tokens;
       ChatLog.judgment_data := judgment_data |} in
  let+ _ := add_and_commit chat_log in
  let+ judgment := pure (JudgmentMetadata_init score rationale flag tokens) in
  let+ text := pure (response_field ai_response) in
  let+ counted := pure (int_field total_tokens) in
  pure (Ret {| ChatResponse.response := text;
               ChatResponse.tokens := counted;
               ChatResponse.sentiment := sentiment_polarity;
               ChatResponse.judgment := judgment |}).

(** [chat_with_ai]: the key check, the [try] and its handler, which writes
    the exception (line 292) and then turns it into a 500. *)
Definition chat_with_ai (request : ChatRequest.t) (s : Server) : reply * Server :=
  if key_missing (api_key s)
  then (HTTPException 500 "OpenAI API key not configured", s)
  else
    match chat_body request s with
    | (Ret body, s') => (Ok body, s')
    | (Raise e, s') =>
        match print [Text "Error in chat endpoint: "; exn_piece e] with
        | Ret _ =>
            (HTTPException 500 ("Error processing chat request: " +:+ exn_str e), s')
        | Raise e' => (Uncaught e', s')
        end
    end.

End Endpoint.

(** A web runtime for the examples: every text has polarity 0, and the
    validation takes the four declared types only. *)
Definition strict_init (score rationale flag tokens : pyobj) : result JudgmentMetadata.t :=
  match score, rationale, flag, tokens with
  | PyInt s, PyStr r, PyBool h, PyInt t =>
      Ret {| JudgmentMetadata.score := s;
             JudgmentMetadata.rationale := r;
             JudgmentMetadata.hallucination_flag := h;
             JudgmentMetadata.tokens_used := t |}
  | _, _, _, _ => Raise (ValueError "validation error for JudgmentMetadata")
  end.

Definition exn_name (e : exn) : string :=
  match e with
  | JSONDecodeError => "Expecting value"
  | ValueError msg | TypeError msg => msg
  | UnicodeEncodeError => "surrogates not allowed"
  | KeyError key => key
  | IndexError => "list index out of range"
  | AttributeError => "object has no attribute"
  | RecursionError => "maximum recursion depth exceeded"
  | ProviderError kind => kind
  end.

Definition strict_int (v : pyobj) : result Z :=
  match v with
  | PyInt n => Ret n
  | _ => Raise (ValueError "value is not a valid integer")
  end.

Definition reference_web : WebRuntime :=
  {| TextBlob_polarity :=
       fun text =>
         match text with
         | Some _ => Ret 0%Q
         | None => Raise (TypeError "The text argument must be a string")
         end;
     JudgmentMetadata_init := strict_init;
     int_field := strict_int;
     exn_str := exn_name;
     int_field_typed := fun _ => eq_refl;
     JudgmentMetadata_init_typed := fun _ _ _ _ => eq_refl |}.

(** A server with a key, no rows, a database that commits, and a provider
    answering the user with [answer] and the judge with [judged]. *)
Definition answering (answer : string) (judged : outcome) : World :=
  {| provider := fun served _ =>
       match served with
       | [] => Returned (completion (Some answer) (PyInt 30))
       | _ => judged
       end;
     history := [] |}.

Definition committing : Database :=
  {| rows := []; commit_error := fun _ _ => None |}.

Definition serving (w : World) : Server :=
  {| api_key := Some "sk-test"; openai := w; db := committing |}.

Definition ospf_request : ChatRequest.t :=
  {| ChatRequest.user_id := "test_user_001"; ChatRequest.prompt := ospf_prompt |}.

Definition letort_request : ChatRequest.t :=
  {| ChatRequest.user_id := "test_user_001"; ChatRequest.prompt := letort_prompt |}.

(** ** Vocabulary for the endpoint *)

(** What the handler of [chat_with_ai] makes of the exception [e]: a 500
    naming it, unless its text cannot be written. *)
Definition error_reply {web : WebRuntime} (e : exn) : reply :=
  if exn_printable e
  then HTTPException 500 ("Error processing chat request: " +:+ exn_str e)
  else Uncaught UnicodeEncodeError.

(** The server after the provider's side became [w]. *)
Definition with_world (s : Server) (w : World) : Server :=
  {| api_key := api_key s; openai := w; db := db s |}.

(** The server after [chat_log] was committed. *)
Definition stored (s : Server) (chat_log : ChatLog.t) : Server :=
  {| api_key := api_key s; openai := openai s;
     db := {| rows := (rows (db s) ++ [chat_log])%list;
              commit_error := commit_error (db s) |} |}.

(** The provider answered the user's prompt with a completion carrying
    [text] and a usage record [us]. *)
Definition chat_returned (s : Server) (request : ChatRequest.t)
    (text : option string) (us : Usage) : Prop :=
  exists response choice rest,
    provider (openai s) (history (openai s)) (chat_request (ChatRequest.prompt request))
      = Returned response /\
    choices response = choice :: rest /\
    content (message choice) = text /\
    usage response = Some us.

(** The provider's side once the user's prompt was sent. *)
Definition after_chat (s : Server) (request : ChatRequest.t) : World :=
  sent (openai s) (chat_request (ChatRequest.prompt request)).

(** The database commits whatever row it is given next. *)
Definition commits (s : Server) : Prop :=
  forall chat_log, commit_error (db s) (rows (db s)) chat_log = None.

(** The row the endpoint builds. *)
Definition chat_log_of (request : ChatRequest.t) (text : string) (us : Usage)
    (polarity : float) (verdict score rationale flag tokens : pyobj) : ChatLog.t :=
  {| ChatLog.user_id := ChatRequest.user_id request;
     ChatLog.prompt := ChatRequest.prompt request;
     ChatLog.response := Some text;
     ChatLog.usage_tokens := total_tokens us;
     ChatLog.sentiment_score := polarity;
     ChatLog.judgment_score := score;
     ChatLog.judgment_rationale := rationale;
     ChatLog.hallucination_flag := flag;
     ChatLog.judgment_tokens := tokens;
     ChatLog.judgment_data := verdict |}.

Definition numeric_rationale_text : string :=
  dq "{`score`:4,`rationale`:7,`hallucination_flag`:false}".

(** The judge writes a number where the rationale belongs. *)
Definition numeric_judge : World :=
  answering ospf_answer (Returned (completion (Some numeric_rationale_text) (PyInt 40))).

Definition numeric_verdict : pyobj :=
  PyDict {[ "score" := PyInt 4;
            "rationale" := PyInt 7;
            "hallucination_flag" := PyBool false;
            "tokens" := PyInt 40 ]}.

(** The judge times out after the user was answered. *)
Definition judge_timing_out : World :=
  answering ospf_answer (Raised (ProviderError "Timeout")).

(** The judge fails with a text that cannot be written, after the user was
    answered. *)
Definition judge_failing_unprintably : World :=
  answering ospf_answer (Raised (ProviderError lone_surrogate)).

(** A database that refuses every commit. *)
Definition refusing : Database :=
  {| rows := []; commit_error := fun _ _ => Some (ProviderError "OperationalError") |}.

(** ** The sentiment label

    [_get_sentiment_description] (lines 295 to 310). The literal [0.3] is the
    double next to three tenths. *)

Definition three_tenths : float := 5404319552844595 # 18014398509481984.

Definition _get_sentiment_description (polarity : float) : string :=
  if Qlt_le_dec three_tenths polarity then "Positive"
  else if Qlt_le_dec polarity (- three_tenths) then "Negative"
  else "Neutral".

(** The labels from the most negative to the most positive. *)
Definition label_rank (label : string) : Z :=
  if String.eqb label "Positive" then 1
  else if String.eqb label "Negative" then -1
  else 0.

Definition opposite_label (label : string) : string :=
  if String.eqb label "Positive" then "Negative"
  else if String.eqb label "Negative" then "Positive"
  else label.

(** ** The migration

    [alembic/versions/20250103_add_judgment_fields.py]. A schema maps a table
    to its columns; [op.add_column] and [op.drop_column] are the two
    [ALTER TABLE] statements, refused for a table that does not exist, a
    column that exists already and a column that does not exist. A migration
    runs in one transaction, so a refused statement leaves the schema as it
    was. *)

Module Migration.

Inductive sql_type : Type :=
  | Integer | Float | Text | Boolean | JSON | DateTime | UUID.

Record Column := { type_ : sql_type; nullable : bool }.

Inductive ddl_error : Type :=
  | UndefinedTable (table : string)
  | DuplicateColumn (name : string)
  | UndefinedColumn (name : string).

Definition add_column (table name : string) (column : Column)
    (schema : gmap string (gmap string Column))
    : ddl_error + gmap string (gmap string Column) :=
  match schema !! table with
  | None => inl (UndefinedTable table)
  | Some columns =>
      match columns !! name with
      | Some _ => inl (DuplicateColumn name)
      | None => inr (<[table := <[name := column]> columns]> schema)
      end
  end.

Definition drop_column (table name : string)
    (schema : gmap string (gmap string Column))
    : ddl_error + gmap string (gmap string Column) :=
  match schema !! table with
  | None => inl (UndefinedTable table)
  | Some columns =>
      match columns !! name with
      | None => inl (UndefinedColumn name)
      | Some _ => inr (<[table := delete name columns]> schema)
      end
  end.

(** One statement after the other; the first refusal ends the migration. *)
Fixpoint run (statements : list (gmap string (gmap string Column)
                                 -> ddl_error + gmap string (gmap string Column)))
    (schema : gmap string (gmap string Column))
    : ddl_error + gmap string (gmap string Column) :=
  match statements with
  | [] => inr schema
  | statement :: rest =>
      match statement schema with
      | inl e => inl e
      | inr schema' => run rest schema'
      end
  end.

Definition upgrade : gmap string (gmap string Column)
                     -> ddl_error + gmap string (gmap string Column) :=
  run [add_column "chat_logs" "judgment_score" {| type_ := Integer; nullable := true |};
       add_column "chat_logs" "judgment_rationale" {| type_ := Text; nullable := true |};
       add_column "chat_logs" "hallucination_flag" {| type_ := Boolean; nullable := true |};
       add_column "chat_logs" "judgment_tokens" {| type_ := Integer; nullable := true |};
       add_column "chat_logs" "judgment_data" {| type_ := JSON; nullable := true |}].

Definition downgrade : gmap string (gmap string Column)
                       -> ddl_error + gmap string (gmap string Column) :=
  run [drop_column "chat_logs" "judgment_data";
       drop_column "chat_logs" "judgment_tokens";
       drop_column "chat_logs" "hallucination_flag";
       drop_column "chat_logs" "judgment_rationale";
       drop_column "chat_logs" "judgment_score"].

(** The table with the five columns added. *)
Definition upgraded (columns : gmap string Column) : gmap string Column :=
  <["judgment_data" := {| type_ := JSON; nullable := true |}]>
  (<["judgment_tokens" := {| type_ := Integer; nullable := true |}]>
  (<["hallucination_flag" := {| type_ := Boolean; nullable := true |}]>
  (<["judgment_rationale" := {| type_ := Text; nullable := true |}]>
  (<["judgment_score" := {| type_ := Integer; nullable := true |}]> columns)))).

(** The judgment columns [models.ChatLog] declares (models.py, lines 41 to
    46). *)
Definition model_judgment_columns : list (string * Column) :=
  [("judgment_score", {| type_ := Integer; nullable := true |});
   ("judgment_rationale", {| type_ := Text; nullable := true |});
   ("hallucination_flag", {| type_ := Boolean; nullable := true |});
   ("judgment_tokens", {| type_ := Integer; nullable := true |});
   ("judgment_data", {| type_ := JSON; nullable := true |})].

(** No judgment column is in the table yet. *)
Definition fresh (columns : gmap string Column) : Prop :=
  forall name column, In (name, column) model_judgment_columns -> columns !! name = None.

(** The other columns [models.ChatLog] declares (lines 27 to 39 and 49). *)
Definition model_base_columns : gmap string Column :=
  {[ "id" := {| type_ := UUID; nullable := false |};
     "user_id" := {| type_ := Text; nullable := false |};
     "prompt" := {| type_ := Text; nullable := false |};
     "response" := {| type_ := Text; nullable := true |};
     "usage_tokens" := {| type_ := Integer; nullable := true |};
     "sentiment_score" := {| type_ := Float; nullable := true |};
     "created_at" := {| type_ := DateTime; nullable := false |} ]}.

Definition base_schema : gmap string (gmap string Column) :=
  {[ "chat_logs" := model_base_columns ]}.

End Migration.

(** * Properties *)

Section Properties.
Context {py : PyRuntime}.

(** ** Substring search *)

Lemma starts_with_spec (p s : string) :
  starts_with p s = true <-> exists b, s = p +:+ b.
Proof.
  revert s. induction p as [|a p IH]; intros s; simpl.
  - split; [intros _; by exists s | done].
  - destruct s as [|b s].
    + split; [done | intros [t Ht]; discriminate].
    + destruct (Ascii.eqb_spec a b) as [->|Hne].
      * rewrite IH. split; intros [t Ht]; exists t; [by rewrite Ht | by injection Ht].
      * split; [done | intros [t Ht]; injection Ht; intros; by subst].
Qed.

Lemma str_in_spec (sub s : string) :
  str_in sub s = true <-> exists a b, s = a +:+ sub +:+ b.
Proof.
  induction s as [|c s IH]; simpl.
  - destruct (starts_with sub "") eqn:Hp.
    + split; [intros _ | done].
      apply starts_with_spec in Hp as [b Hb]. by exists "", b.
    + split; [done |]. intros [a [b Hab]].
      destruct a; [| discriminate]. simpl in Hab.
      assert (starts_with sub "" = true) by (apply starts_with_spec; eauto).
      congruence.
  - destruct (starts_with sub (String c s)) eqn:Hp.
    + split; [intros _ | done].
      apply starts_with_spec in Hp as [b Hb]. by exists "", b.
    + rewrite IH. split.
      * intros [a [b ->]]. by exists (String c a), b.
      * intros [a [b Hab]]. destruct a as [|c' a].
        -- simpl in Hab.
           assert (starts_with sub (String c s) = true) by (apply starts_with_spec; eauto).
           congruence.
        -- injection Hab as -> ->. eauto.
Qed.

(** ** The loop over the denylist *)

Lemma first_fake_None (patterns : list string) (text : string) :
  first_fake patterns text = None <->
  forall pattern, In pattern patterns -> str_in (str_lower pattern) text = false.
Proof.
  induction patterns as [|p ps IH]; simpl.
  - split; [intros _ ? [] | done].
  - destruct (str_in (str_lower p) text) eqn:Hp.
    + split; [done |]. intros H. specialize (H p (or_introl eq_refl)). congruence.
    + rewrite IH. split.
      * intros H q [<-|Hq]; auto.
      * intros H q Hq. apply H. by right.
Qed.

Lemma first_fake_Some (patterns : list string) (text pattern : string) :
  first_fake patterns text = Some pattern <->
  exists before after,
    patterns = (before ++ pattern :: after)%list /\
    str_in (str_lower pattern) text = true /\
    forall q, In q before -> str_in (str_lower q) text = false.
Proof.
  revert pattern. induction patterns as [|p ps IH]; intros pattern; simpl.
  - split; [done |]. intros (before & after & H & _). by destruct before.
  - destruct (str_in (str_lower p) text) eqn:Hp.
    + split.
      * intros [= <-]. exists [], ps. repeat split; [done |]. intros ? [].
      * intros (before & after & Heq & Hm & Hb). destruct before as [|q before].
        -- injection Heq as -> _. done.
        -- injection Heq as -> _. specialize (Hb q (or_introl eq_refl)). congruence.
    + rewrite IH. split.
      * intros (before & after & -> & Hm & Hb). exists (p :: before), after.
        repeat split; [done |]. intros q [<-|Hq]; auto.
      * intros (before & after & Heq & Hm & Hb). destruct before as [|q before].
        -- injection Heq as -> _. congruence.
        -- injection Heq as -> ->. exists before, after. repeat split; [done |].
           intros r Hr. apply Hb. by right.
Qed.


(** ** Writing to standard output *)

Lemma print_line (before data after : string) :
  encodable before = true -> encodable after = true ->
  print [Text before; Text data; Text after]
  = if encodable data then Ret tt else Raise UnicodeEncodeError.
Proof.
  intros Hb Ha. unfold print. cbn [forallb piece_encodable]. rewrite Hb, Ha.
  by destruct (encodable data).
Qed.

Lemma print_tail (before : string) (p : piece) :
  encodable before = true ->
  print [Text before; p] = if piece_encodable p then Ret tt else Raise UnicodeEncodeError.
Proof.
  intros Hb. unfold print. cbn [forallb piece_encodable]. rewrite Hb.
  by destruct (piece_encodable p).
Qed.

Lemma first_fake_In (patterns : list string) (text pattern : string) :
  first_fake patterns text = Some pattern -> In pattern patterns.
Proof.
  intros H. apply first_fake_Some in H as (before & after & -> & _).
  apply in_or_app. right. by left.
Qed.

Lemma fake_pattern_encodable (pattern : string) :
  In pattern fake_patterns -> encodable pattern = true.
Proof.
  unfold fake_patterns. cbn [In].
  intros [<- | [<- | [<- | [<- | [<- | [<- | [<- | [<- | [<- | []]]]]]]]]]; reflexivity.
Qed.

(** ** The validation of the judge's text *)

Lemma json_loads_not_blank (text : string) (v : pyobj) :
  json_loads text = Some v -> is_blank (Some text) = false.
Proof.
  intros Hj. unfold is_blank.
  destruct (String.eqb_spec text "") as [E|_].
  { rewrite json_loads_blank in Hj by auto. discriminate. }
  destruct (String.eqb_spec (str_strip text) "") as [E|_]; [| done].
  rewrite json_loads_blank in Hj by auto. discriminate.
Qed.

Lemma parse_evaluation_blank (a : string) (t : option string) (n : pyobj) :
  is_blank t = true ->
  parse_evaluation a t n = Raise (ValueError "Empty evaluation response from OpenAI").
Proof. intros H. unfold parse_evaluation. by rewrite H. Qed.

Lemma parse_evaluation_decode_error (a text : string) (n : pyobj) :
  is_blank (Some text) = false -> json_loads text = None ->
  parse_evaluation a (Some text) n
  = Raise (if json_loads_too_deep text then RecursionError else JSONDecodeError).
Proof.
  intros Hb Hj. unfold parse_evaluation, loads. rewrite Hb, Hj.
  by destruct (json_loads_too_deep text).
Qed.

(** On a JSON object the three checks run in order and each failure is a
    [ValueError]; after them only a trace can still raise. *)
Lemma parse_evaluation_object (a text : string) (n : pyobj) (d : gmap string pyobj) :
  is_blank (Some text) = false -> json_loads text = Some (PyDict d) ->
  parse_evaluation a (Some text) n =
  match d !! "score", d !! "rationale", d !! "hallucination_flag" with
  | Some score, Some rationale, Some flag =>
      if negb (score_in_range score)
      then Raise (ValueError "Score must be an integer between 1 and 5")
      else if negb (isinstance_bool flag)
      then Raise (ValueError "Hallucination flag must be a boolean")
      else if negb (rationale_traced rationale (bool_value flag))
      then Raise UnicodeEncodeError
      else if negb (snippet_traced a score)
      then Raise UnicodeEncodeError
      else Ret (PyDict (<["tokens" := n]> d))
  | _, _, _ => Raise (ValueError "Missing required fields in evaluation response")
  end.
Proof.
  intros Hb Hj. unfold parse_evaluation, loads. rewrite Hb, Hj.
  cbn [raise_when result_bind all_in required_fields py_contains py_getitem py_setitem].
  destruct (d !! "score") as [score|] eqn:Hs; [| by cbn].
  destruct (d !! "rationale") as [rationale|] eqn:Hr; [| by cbn].
  destruct (d !! "hallucination_flag") as [flag|] eqn:Hf; [| by cbn].
  cbn [bool_decide decide_rel negb raise_when result_bind].
  assert (Hin : forall key, key <> "tokens" ->
            (<["tokens" := n]> d : gmap string pyobj) !! key = d !! key)
    by (intros key Hk; by rewrite lookup_insert_ne).
  unfold score_in_range.
  destruct (isinstance_int score); cbn [negb orb andb raise_when result_bind]; [| done].
  destruct (1 <=? int_value score) eqn:H1;
    cbn [negb orb andb raise_when result_bind]; [| done].
  destruct (int_value score <=? 5) eqn:H5;
    cbn [negb orb andb raise_when result_bind]; [| done].
  destruct (isinstance_bool flag); cbn [negb raise_when result_bind]; [| done].
  rewrite (print_tail _ Escaped) by reflexivity. cbn [piece_encodable result_bind].
  rewrite !Hin, Hs, Hr, Hf by done. cbn [result_bind].
  unfold rationale_traced, snippet_traced.
  destruct (bool_value flag); cbn [negb orb result_bind].
  - rewrite print_tail by reflexivity.
    destruct (piece_encodable (shown rationale)); cbn [negb result_bind]; [| done].
    destruct ((4 <=? int_value score) && existsb _ suspicious_patterns);
      cbn [negb orb result_bind]; [| done].
    unfold print at 1. cbn [forallb piece_encodable andb result_bind].
    rewrite print_line by reflexivity.
    by destruct (encodable (str_prefix 100 a)).
  - destruct ((4 <=? int_value score) && existsb _ suspicious_patterns);
      cbn [negb orb result_bind]; [| done].
    unfold print at 1. cbn [forallb piece_encodable andb result_bind].
    rewrite print_line by reflexivity.
    by destruct (encodable (str_prefix 100 a)).
Qed.

(** A JSON value that is no container makes [in] raise a [TypeError], which
    the clause of the inner [try] does not match. *)
Lemma parse_evaluation_scalar (a text : string) (n v : pyobj) :
  is_blank (Some text) = false -> json_loads text = Some v -> is_scalar v = true ->
  parse_evaluation a (Some text) n = Raise (TypeError "argument is not iterable").
Proof.
  intros Hb Hj Hv. unfold parse_evaluation, loads. rewrite Hb, Hj.
  destruct v; try discriminate; reflexivity.
Qed.

(** A JSON array or string either lacks a field name ([ValueError]) or
    cannot be indexed by one ([TypeError]). *)
Lemma parse_evaluation_sequence (a text : string) (n v : pyobj) :
  is_blank (Some text) = false -> json_loads text = Some v ->
  match v with PyList _ | PyStr _ => True | _ => False end ->
  parse_evaluation a (Some text) n
    = Raise (ValueError "Missing required fields in evaluation response")
  \/ parse_evaluation a (Some text) n = Raise (TypeError "indices must be integers").
Proof.
  intros Hb Hj Hv. unfold parse_evaluation, loads. rewrite Hb, Hj.
  destruct v; try done;
    cbn [raise_when result_bind all_in required_fields py_contains py_getitem];
    repeat match goal with
           | |- context [if ?b then _ else _] => destruct b; cbn; auto
           end.
Qed.

(** What a verdict that left the validation looks like. *)
Lemma parse_evaluation_Ret_inv (a : string) (t : option string) (n v : pyobj) :
  parse_evaluation a t n = Ret v ->
  exists text d score rationale flag,
    t = Some text /\ is_blank (Some text) = false /\
    json_loads text = Some (PyDict d) /\
    d !! "score" = Some score /\ score_in_range score = true /\
    d !! "rationale" = Some rationale /\
    d !! "hallucination_flag" = Some (PyBool flag) /\
    rationale_traced rationale flag = true /\
    v = PyDict (<["tokens" := n]> d).
Proof.
  intros H. destruct (is_blank t) eqn:Hb.
  { rewrite parse_evaluation_blank in H by done. discriminate. }
  destruct t as [text|]; [| discriminate].
  destruct (json_loads text) as [j|] eqn:Hj.
  2: { rewrite parse_evaluation_decode_error in H by done. discriminate. }
  destruct j.
  1-4: rewrite (parse_evaluation_scalar a text n _ Hb Hj eq_refl) in H; discriminate.
  1-2: destruct (parse_evaluation_sequence a text n _ Hb Hj I) as [E|E];
       rewrite E in H; discriminate.
  rewrite (parse_evaluation_object a text n d Hb Hj) in H.
  destruct (d !! "score") as [score|] eqn:Hs; [| discriminate].
  destruct (d !! "rationale") as [rationale|] eqn:Hr; [| discriminate].
  destruct (d !! "hallucination_flag") as [flag|] eqn:Hf; [| discriminate].
  destruct (score_in_range score) eqn:Hrange; [| discriminate].
  destruct flag; try discriminate. cbn [isinstance_bool negb bool_value] in H.
  destruct (rationale_traced rationale b) eqn:Htr; [| discriminate].
  destruct (snippet_traced a score); [| discriminate].
  cbn in H. injection H as <-.
  exists text, d, score, rationale, b. done.
Qed.

(** Whatever leaves the validation as an exception has a text that can be
    written. *)
Lemma parse_evaluation_Raise_printable (a : string) (t : option string) (n : pyobj)
    (e : exn) :
  parse_evaluation a t n = Raise e -> exn_printable e = true.
Proof.
  intros H. destruct (is_blank t) eqn:Hb.
  { rewrite parse_evaluation_blank in H by done. by injection H as <-. }
  destruct t as [text|]; [| discriminate].
  destruct (json_loads text) as [j|] eqn:Hj.
  2: { rewrite parse_evaluation_decode_error in H by done. injection H as <-.
       by destruct (json_loads_too_deep text). }
  destruct j.
  1-4: rewrite (parse_evaluation_scalar a text n _ Hb Hj eq_refl) in H;
       by injection H as <-.
  1-2: destruct (parse_evaluation_sequence a text n _ Hb Hj I) as [E|E];
       rewrite E in H; by injection H as <-.
  rewrite (parse_evaluation_object a text n d Hb Hj) in H.
  repeat match type of H with
         | context [match ?x with _ => _ end] => destruct x
         end; try discriminate; by injection H as <-.
Qed.

(** ** The denylist, in terms of occurrences *)

Lemma clean_first_fake (user_prompt ai_response : string) :
  clean user_prompt ai_response <->
  first_fake fake_patterns (combined_text user_prompt ai_response) = None.
Proof.
  rewrite first_fake_None. unfold clean. split; intros H pattern Hin.
  - destruct (str_in _ _) eqn:E; [| done].
    apply str_in_spec in E. by destruct (H pattern Hin).
  - intros Ho. apply str_in_spec in Ho. rewrite H in Ho by done. discriminate.
Qed.

Lemma first_match_first_fake (user_prompt ai_response pattern : string) :
  first_match user_prompt ai_response pattern <->
  first_fake fake_patterns (combined_text user_prompt ai_response) = Some pattern.
Proof.
  rewrite first_fake_Some. unfold first_match, occurs_in.
  split; intros (before & after & Heq & Hm & Hb); exists before, after;
    (split; [done |]); split.
  - by apply str_in_spec.
  - intros q Hq. destruct (str_in _ _) eqn:E; [| done].
    apply str_in_spec in E. by destruct (Hb q Hq).
  - by apply str_in_spec.
  - intros q Hq Ho. apply str_in_spec in Ho. rewrite Hb in Ho by done. discriminate.
Qed.


(** ** The function, path by path *)

Lemma unavailable_after (e : exn) :
  unavailable e
  = if exn_printable e then Ret unavailable_verdict else Raise UnicodeEncodeError.
Proof.
  unfold unavailable, exn_printable.
  rewrite print_tail by reflexivity.
  destruct (piece_encodable (exn_piece e)) eqn:He; [| done]. cbn [result_bind].
  unfold print. cbn [forallb piece_encodable]. by rewrite He.
Qed.

Lemma parse_failure_after (t : option string) (n : pyobj) (e : exn) :
  exn_printable e = true -> piece_encodable (text_piece t) = true ->
  parse_failure t n e = Ret (parse_failure_verdict n).
Proof.
  intros He Ht. unfold parse_failure, exn_printable in *.
  rewrite print_tail, He by reflexivity. cbn [result_bind].
  unfold print. cbn [forallb piece_encodable]. by rewrite Ht.
Qed.

Lemma evaluate_response_unfold (user_prompt ai_response : string) (w : World) :
  evaluate_response user_prompt ai_response w =
  match first_fake fake_patterns (combined_text user_prompt ai_response) with
  | Some pattern => (Ret (precheck_verdict pattern), w)
  | None =>
      if printable_call user_prompt ai_response
      then (judge_result ai_response
              (provider w (history w) (judge_request user_prompt ai_response)),
            sent w (judge_request user_prompt ai_response))
      else (Ret unavailable_verdict, w)
  end.
Proof.
  unfold evaluate_response.
  destruct (first_fake fake_patterns _) as [pattern|] eqn:Hf.
  { unfold bind, lift, ret. rewrite print_line by reflexivity.
    by rewrite (fake_pattern_encodable pattern (first_fake_In _ _ _ Hf)). }
  unfold try_exceptM, bind, lift, printable_call, isinstance_Exception.
  rewrite print_line by reflexivity.
  destruct (encodable (str_prefix 50 user_prompt)); cbn [andb].
  2: { by rewrite unavailable_after. }
  rewrite print_line by reflexivity.
  destruct (encodable (str_prefix 100 ai_response)).
  2: { by rewrite unavailable_after. }
  unfold ChatCompletion_create, judge_result, sent, printable_completion.
  destruct (provider w (history w) _) as [response|e].
  2: { rewrite unavailable_after. by destruct (exn_printable e). }
  rewrite print_tail by reflexivity. cbn [piece_encodable].
  destruct (encodable (completion_str response)); cbn [andb].
  2: { rewrite unavailable_after. cbn.
       by destruct (choices response), (usage response). }
  destruct (choices response) as [|choice rest]; cbn [first_item].
  { by rewrite unavailable_after. }
  destruct (usage response) as [us|]; cbn [getattr].
  2: { by rewrite unavailable_after. }
  rewrite print_tail by reflexivity.
  destruct (piece_encodable (text_piece (content (message choice)))) eqn:Ht; cbn [andb].
  2: { by rewrite unavailable_after. }
  rewrite print_tail by reflexivity.
  destruct (piece_encodable (shown (total_tokens us))); cbn [andb].
  2: { by rewrite unavailable_after. }
  unfold try_except.
  destruct (parse_evaluation _ _ _) as [v|e] eqn:Hp; [reflexivity |].
  pose proof (parse_evaluation_Raise_printable _ _ _ _ Hp) as He.
  destruct (parse_error_clause e).
  - by rewrite parse_failure_after.
  - by rewrite unavailable_after, He.
Qed.

(** ** The verdict after a judge call *)

(** A verdict after the call is one of the two defaults or the judge's
    object with the token count set. *)
Lemma judge_result_cases (ai_response : string) (o : outcome) (v : pyobj) :
  judge_result ai_response o = Ret v ->
  v = unavailable_verdict
  \/ exists response choice rest us,
       o = Returned response /\ choices response = choice :: rest /\
       usage response = Some us /\
       printable_completion response (content (message choice)) (total_tokens us) = true /\
       (v = parse_failure_verdict (total_tokens us)
        \/ exists text d score rationale flag,
             content (message choice) = Some text /\
             json_loads text = Some (PyDict d) /\
             d !! "score" = Some score /\ score_in_range score = true /\
             d !! "rationale" = Some rationale /\
             d !! "hallucination_flag" = Some (PyBool flag) /\
             rationale_traced rationale flag = true /\
             v = PyDict (<["tokens" := total_tokens us]> d)).
Proof.
  destruct o as [response|e]; unfold judge_result.
  2: { destruct (exn_printable e); [| done]. intros [= <-]. by left. }
  destruct (choices response) as [|choice rest] eqn:Hc; [intros [= <-]; by left |].
  destruct (usage response) as [us|] eqn:Hu; [| intros [= <-]; by left].
  cbv zeta.
  destruct (printable_completion _ _ _) eqn:Hpr; [| intros [= <-]; by left].
  destruct (parse_evaluation _ _ _) as [v'|e] eqn:Hp.
  - intros [= <-]. right. exists response, choice, rest, us. repeat split; try done. right.
    apply parse_evaluation_Ret_inv in Hp
      as (text & d & score & rationale & flag & Ht & _ & Hj & Hs & Hr & Hra & Hf & Htr & ->).
    exists text, d, score, rationale, flag. done.
  - destruct (parse_error_clause e); intros [= <-]; [| by left].
    right. exists response, choice, rest, us. repeat split; try done. by left.
Qed.

(** After the call only an exception of the provider whose text cannot be
    written leaves the function. *)
Lemma judge_result_Raise (ai_response : string) (o : outcome) (e : exn) :
  judge_result ai_response o = Raise e ->
  e = UnicodeEncodeError /\ exists e0, o = Raised e0 /\ exn_printable e0 = false.
Proof.
  destruct o as [response|e0]; unfold judge_result.
  - destruct (choices response), (usage response); try discriminate. cbv zeta.
    destruct (printable_completion _ _ _); [| discriminate].
    destruct (parse_evaluation _ _ _) as [v|e']; [discriminate |].
    destruct (parse_error_clause e'); discriminate.
  - destruct (exn_printable e0) eqn:He; [discriminate |]. intros [= <-]. eauto.
Qed.

End Properties.

(** * The claims *)

Section Claims.
Context {py : PyRuntime}.

Lemma history_grows (w : World) (request : Request) :
  history (sent w request) <> history w.
Proof.
  unfold sent. cbn. intros H. apply (f_equal length) in H.
  rewrite length_app in H. cbn in H. lia.
Qed.

Lemma score_in_range_bounds (score : pyobj) :
  score_in_range score = true ->
  isinstance_int score = true /\ 1 <= int_value score <= 5.
Proof.
  unfold score_in_range. intros H.
  apply andb_prop in H as [H H5]. apply andb_prop in H as [Hi H1].
  apply Z.leb_le in H1, H5. done.
Qed.

(** The values that pass the score check: an [int] between 1 and 5, and
    [True]. *)
Lemma score_in_range_cases (score : pyobj) :
  score_in_range score = true ->
  (exists n, score = PyInt n /\ 1 <= n <= 5) \/ score = PyBool true.
Proof.
  intros H. apply score_in_range_bounds in H as [Hi Hb].
  destruct score as [| b | n | | | |]; try discriminate.
  - right. destruct b; [done |]. cbn in Hb. lia.
  - left. by exists n.
Qed.

Lemma in_range_int (score : Z) :
  1 <= score <= 5 -> score_in_range (PyInt score) = true.
Proof.
  intros H. unfold score_in_range. cbn.
  apply andb_true_intro. split; apply Z.leb_le; lia.
Qed.

Lemma printable_call_snippet (user_prompt ai_response : string) (score : pyobj) :
  printable_call user_prompt ai_response = true ->
  snippet_traced ai_response score = true.
Proof.
  unfold printable_call, snippet_traced. intros H.
  apply andb_prop in H as [_ ->]. apply orb_true_r.
Qed.

(** The function once the judge has answered with a completion that has a
    first choice and a usage record. *)
Lemma evaluate_response_answered (user_prompt ai_response : string) (w : World)
    (response : ChatCompletion) (text : option string) (us : Usage) :
  clean user_prompt ai_response ->
  printable_call user_prompt ai_response = true ->
  judge_answered w user_prompt ai_response response text us ->
  evaluate_response user_prompt ai_response w =
    (if printable_completion response text (total_tokens us) then
       match parse_evaluation ai_response text (total_tokens us) with
       | Ret v => Ret v
       | Raise e =>
           if parse_error_clause e then Ret (parse_failure_verdict (total_tokens us))
           else Ret unavailable_verdict
       end
     else Ret unavailable_verdict,
     sent w (judge_request user_prompt ai_response)).
Proof.
  intros Hc Hp (Hprov & (choice & rest & Hch & <-) & Hu). apply clean_first_fake in Hc.
  rewrite evaluate_response_unfold, Hc, Hp, Hprov. unfold judge_result.
  by rewrite Hch, Hu.
Qed.

(** The function on a judge text that decodes to an object passing the three
    checks. *)
Lemma evaluate_response_parsed (user_prompt ai_response : string) (w : World)
    (response : ChatCompletion) (text : string) (us : Usage)
    (d : gmap string pyobj) (score rationale : pyobj) (flag : bool) :
  clean user_prompt ai_response ->
  printable_call user_prompt ai_response = true ->
  judge_answered w user_prompt ai_response response (Some text) us ->
  json_loads text = Some (PyDict d) ->
  d !! "score" = Some score -> score_in_range score = true ->
  d !! "rationale" = Some rationale ->
  d !! "hallucination_flag" = Some (PyBool flag) ->
  evaluate_response user_prompt ai_response w =
    (Ret (if negb (printable_completion response (Some text) (total_tokens us))
          then unavailable_verdict
          else if rationale_traced rationale flag
          then PyDict (<["tokens" := total_tokens us]> d)
          else parse_failure_verdict (total_tokens us)),
     sent w (judge_request user_prompt ai_response)).
Proof.
  intros Hc Hp Hans Hj Hs Hrange Hr Hf.
  rewrite (evaluate_response_answered _ _ _ _ _ _ Hc Hp Hans).
  destruct (printable_completion _ _ _); [| done].
  rewrite (parse_evaluation_object _ text _ d (json_loads_not_blank _ _ Hj) Hj), Hs, Hr, Hf.
  rewrite Hrange. cbn [negb isinstance_bool bool_value].
  rewrite (printable_call_snippet _ _ _ Hp).
  by destruct (rationale_traced rationale flag).
Qed.

(** An exception leaves the function on one path only. *)
Lemma evaluate_response_Raise_inv (user_prompt ai_response : string) (w w' : World)
    (e : exn) :
  evaluate_response user_prompt ai_response w = (Raise e, w') ->
  e = UnicodeEncodeError /\ clean user_prompt ai_response /\
  printable_call user_prompt ai_response = true /\
  w' = sent w (judge_request user_prompt ai_response) /\
  exists e0, judge_raised w user_prompt ai_response e0 /\ exn_printable e0 = false.
Proof.
  rewrite evaluate_response_unfold.
  destruct (first_fake fake_patterns _) eqn:Hf; [discriminate |].
  apply clean_first_fake in Hf.
  destruct (printable_call user_prompt ai_response); [| discriminate].
  intros [= H <-]. apply judge_result_Raise in H as (-> & e0 & Ho & He0).
  repeat split; try done. by exists e0.
Qed.

(** Every verdict is a dictionary with the four entries. *)
Lemma evaluate_response_entries (user_prompt ai_response : string) (w w' : World)
    (v : pyobj) :
  evaluate_response user_prompt ai_response w = (Ret v, w') ->
  exists d, v = PyDict d /\
    is_Some (d !! "score") /\ is_Some (d !! "rationale") /\
    is_Some (d !! "hallucination_flag") /\ is_Some (d !! "tokens").
Proof.
  rewrite evaluate_response_unfold.
  destruct (first_fake fake_patterns _) as [pattern|].
  { intros [= <- <-]. eexists. split; [reflexivity |]. repeat split; vm_compute; eauto. }
  destruct (printable_call user_prompt ai_response).
  2: { intros [= <- <-]. eexists. split; [reflexivity |]. repeat split; vm_compute; eauto. }
  intros [= H <-].
  apply judge_result_cases in H
    as [-> | (response & choice & rest & us & _ & _ & _ & _ & [-> | E])].
  - eexists. split; [reflexivity |]. repeat split; vm_compute; eauto.
  - eexists. split; [reflexivity |].
    unfold parse_failure_verdict. repeat split.
    + by rewrite lookup_insert_eq.
    + rewrite lookup_insert_ne, lookup_insert_eq by done. eauto.
    + rewrite !lookup_insert_ne, lookup_insert_eq by done. eauto.
    + rewrite !lookup_insert_ne by done. rewrite lookup_singleton_eq. eauto.
  - destruct E as (text & d & score & rationale & flag & _ & _ & Hs & _ & Hr & Hf & _ & ->).
    eexists. split; [reflexivity |].
    rewrite lookup_insert_eq, !lookup_insert_ne, Hs, Hr, Hf by done. eauto.
Qed.

(** C1, where the code departs from it. The outer handler writes the text of
    the exception it caught before it returns (lines 197 and 198), outside
    any [try]. When the judge call raises an exception whose text cannot be
    written, a [UnicodeEncodeError] leaves [evaluate_response], after the
    request went out. This is the one way out by exception: every other
    outcome is a verdict dictionary with the four entries. *)
Theorem unprintable_failure_escapes (user_prompt ai_response : string) (w : World) :
  (evaluate_response user_prompt ai_response w
     = (Raise UnicodeEncodeError, sent w (judge_request user_prompt ai_response))
   <-> clean user_prompt ai_response /\
       printable_call user_prompt ai_response = true /\
       exists e0, judge_raised w user_prompt ai_response e0 /\ exn_printable e0 = false)
  /\ (forall e w', evaluate_response user_prompt ai_response w = (Raise e, w') ->
        e = UnicodeEncodeError /\ w' = sent w (judge_request user_prompt ai_response))
  /\ (forall v w', evaluate_response user_prompt ai_response w = (Ret v, w') ->
        exists d, v = PyDict d /\
          is_Some (d !! "score") /\ is_Some (d !! "rationale") /\
          is_Some (d !! "hallucination_flag") /\ is_Some (d !! "tokens")).
Proof.
  split; [split |split].
  - intros H. by apply evaluate_response_Raise_inv in H as (_ & Hc & Hp & _ & He).
  - intros (Hc & Hp & e0 & Hr & He). apply clean_first_fake in Hc. red in Hr.
    rewrite evaluate_response_unfold, Hc, Hp, Hr. cbn. by rewrite He.
  - intros e w' H. by apply evaluate_response_Raise_inv in H as (-> & _ & _ & -> & _).
  - intros v w'. apply evaluate_response_entries.
Qed.


(** C4, where the code departs from it. Without a denylist match, when the
    judge call raises, the verdict is the neutral "service unavailable"
    default with tokens 0 as long as the text of the exception can be
    written; when it cannot, the trace of the handler raises and no verdict
    is returned. When a trace before the call cannot be written, the call is
    not made at all. *)
Theorem remote_failure_outcome
    (user_prompt ai_response : string) (w : World) (e : exn) :
  clean user_prompt ai_response ->
  judge_raised w user_prompt ai_response e ->
  evaluate_response user_prompt ai_response w =
    if printable_call user_prompt ai_response
    then (if exn_printable e
          then Ret (PyDict
                      {[ "score" := PyInt 3;
                         "rationale" :=
                           PyStr "Evaluation service unavailable - assigned neutral score";
                         "hallucination_flag" := PyBool false;
                         "tokens" := PyInt 0 ]})
          else Raise UnicodeEncodeError,
          sent w (judge_request user_prompt ai_response))
    else (Ret unavailable_verdict, w).
Proof.
  intros Hc He. apply clean_first_fake in Hc. red in He.
  rewrite evaluate_response_unfold, Hc, He.
  destruct (printable_call user_prompt ai_response); [| done].
  cbn. by destruct (exn_printable e).
Qed.

(** C5, where the code departs from it. Without a denylist match, when the
    judge call returns a text that decodes to a JSON object with an integer
    [score] between 1 and 5, a [rationale] and a boolean
    [hallucination_flag], the verdict is that object with [tokens] set to
    the reported count only if every trace on the way can be written. When
    the flag is true and the rationale cannot be written, the trace of line
    176 raises inside the inner [try] and the verdict is the "parsing
    failed" default, whose flag is false; when a trace of the completion
    cannot be written, the verdict is the "service unavailable" default. *)
Theorem parsed_verdict_outcome
    (user_prompt ai_response : string) (w : World) (response : ChatCompletion)
    (text : string) (us : Usage)
    (d : gmap string pyobj) (score : Z) (rationale : pyobj) (flag : bool) :
  clean user_prompt ai_response ->
  printable_call user_prompt ai_response = true ->
  judge_answered w user_prompt ai_response response (Some text) us ->
  json_loads text = Some (PyDict d) ->
  d !! "score" = Some (PyInt score) -> 1 <= score <= 5 ->
  d !! "rationale" = Some rationale ->
  d !! "hallucination_flag" = Some (PyBool flag) ->
  exists verdict,
    evaluate_response user_prompt ai_response w =
      (Ret verdict, sent w (judge_request user_prompt ai_response)) /\
    (printable_completion response (Some text) (total_tokens us) = true ->
     rationale_traced rationale flag = true ->
     verdict = PyDict (<["tokens" := total_tokens us]> d) /\
     field "score" verdict = Some (PyInt score) /\
     field "rationale" verdict = Some rationale /\
     field "hallucination_flag" verdict = Some (PyBool flag) /\
     field "tokens" verdict = Some (total_tokens us)) /\
    (printable_completion response (Some text) (total_tokens us) = true ->
     rationale_traced rationale flag = false ->
     flag = true /\
     verdict = parse_failure_verdict (total_tokens us) /\
     field "hallucination_flag" verdict = Some (PyBool false) /\
     field "score" verdict = Some (PyInt 3)) /\
    (printable_completion response (Some text) (total_tokens us) = false ->
     verdict = unavailable_verdict).
Proof.
  intros Hc Hp Hans Hj Hs Hrange Hr Hf.
  rewrite (evaluate_response_parsed _ _ _ _ _ _ _ _ _ _ Hc Hp Hans Hj Hs
             (in_range_int _ Hrange) Hr Hf).
  eexists. split; [reflexivity |].
  destruct (printable_completion _ _ _); cbn [negb];
    (split; [| split]); try discriminate.
  - intros _ ->. split; [done |]. cbn [field].
    rewrite lookup_insert_eq, !lookup_insert_ne by done. done.
  - intros _ Htr. rewrite Htr. split; [| done].
    unfold rationale_traced in Htr. by destruct flag.
  - done.
Qed.

(** C6, as amended. The score of a returned verdict is an [int] between 1 and
    5 or, on the parsed path only, the [True] of the judge's object. The
    token count is the integer 0 when no request went out or the call
    raised; otherwise it is 0 or whatever the completion holds under
    [usage.total_tokens], copied without a check. *)
Theorem verdict_bounds (user_prompt ai_response : string) (w w' : World) (v : pyobj) :
  evaluate_response user_prompt ai_response w = (Ret v, w') ->
  exists d score tokens,
    v = PyDict d /\ d !! "score" = Some score /\ d !! "tokens" = Some tokens /\
    ((exists n, score = PyInt n /\ 1 <= n <= 5)
     \/ (score = PyBool true /\
         exists text us judged,
           judge_returned w user_prompt ai_response (Some text) us /\
           json_loads text = Some (PyDict judged) /\
           judged !! "score" = Some (PyBool true))) /\
    ((history w' = history w \/ exists e, judge_raised w user_prompt ai_response e) ->
     tokens = PyInt 0) /\
    (tokens = PyInt 0
     \/ exists text us,
          judge_returned w user_prompt ai_response text us /\
          tokens = total_tokens us).
Proof.
  rewrite evaluate_response_unfold.
  destruct (first_fake fake_patterns _) as [pattern|].
  { intros [= <- <-]. eexists _, (PyInt 1), (PyInt 0). split; [reflexivity |].
    repeat split; try done; [left; exists 1; split; [done | lia] | by left]. }
  destruct (printable_call user_prompt ai_response).
  2: { intros [= <- <-]. eexists _, (PyInt 3), (PyInt 0). split; [reflexivity |].
       repeat split; try done; [left; exists 3; split; [done | lia] | by left]. }
  intros [= H <-].
  pose proof (history_grows w (judge_request user_prompt ai_response)) as Hg.
  apply judge_result_cases in H
    as [-> | (response & choice & rest & us & Ho & Hch & Hu & _ & [-> | E])].
  - eexists _, (PyInt 3), (PyInt 0). split; [reflexivity |].
    repeat split; try done; [left; exists 3; split; [done | lia] | by left].
  - eexists _, (PyInt 3), (total_tokens us). split; [reflexivity |].
    unfold parse_failure_verdict.
    split; [by rewrite lookup_insert_eq |].
    split; [rewrite !lookup_insert_ne by done; by rewrite lookup_singleton_eq |].
    split; [left; exists 3; split; [done | lia] |]. split.
    + intros [H | [e He]]; [done |]. red in He. congruence.
    + right. exists (content (message choice)), us. split; [| done].
      by exists response, choice, rest.
  - destruct E as (text & d & score & rationale & flag & Ht & Hj & Hs & Hrange & _ & _ & _ & ->).
    assert (Hret : judge_returned w user_prompt ai_response (Some text) us)
      by (exists response, choice, rest; done).
    eexists _, score, (total_tokens us). split; [reflexivity |].
    rewrite lookup_insert_eq, lookup_insert_ne by done.
    split; [done |]. split; [done |]. split; [| split].
    + destruct (score_in_range_cases _ Hrange) as [Hn | ->]; [by left |].
      right. split; [done |]. by exists text, us, d.
    + intros [H | [e He]]; [done |]. red in He. congruence.
    + right. by exists (Some text), us.
Qed.

(** C7, as amended. Nothing in the function looks at the value of the
    rationale. On a denylist match it is the fixed sentence naming the first
    matching pattern; on the parsed path it is the value the judge's object
    holds under [rationale], whatever that is; and every verdict is either
    one of the three verdicts that carry a fixed non-empty sentence of the
    code, or the judge's object. *)
Theorem rationale_present (user_prompt ai_response : string) (w : World) :
  (forall pattern, first_match user_prompt ai_response pattern ->
     exists verdict,
       evaluate_response user_prompt ai_response w = (Ret verdict, w) /\
       field "rationale" verdict
       = Some (PyStr ("Response contains references to non-existent device '"
                      +:+ pattern
                      +:+ "'. This appears to be a fabricated product name that doesn't exist in reality.")))
  /\ (forall response text us d score rationale flag,
        clean user_prompt ai_response ->
        printable_call user_prompt ai_response = true ->
        judge_answered w user_prompt ai_response response (Some text) us ->
        printable_completion response (Some text) (total_tokens us) = true ->
        json_loads text = Some (PyDict d) ->
        d !! "score" = Some score -> score_in_range score = true ->
        d !! "rationale" = Some rationale ->
        d !! "hallucination_flag" = Some (PyBool flag) ->
        rationale_traced rationale flag = true ->
        exists verdict,
          evaluate_response user_prompt ai_response w =
            (Ret verdict, sent w (judge_request user_prompt ai_response)) /\
          field "rationale" verdict = Some rationale)
  /\ (forall verdict w',
        evaluate_response user_prompt ai_response w = (Ret verdict, w') ->
        (exists pattern,
           first_match user_prompt ai_response pattern /\
           field "rationale" verdict
           = Some (PyStr ("Response contains references to non-existent device '"
                          +:+ pattern
                          +:+ "'. This appears to be a fabricated product name that doesn't exist in reality.")))
        \/ (clean user_prompt ai_response /\
            field "rationale" verdict
            = Some (PyStr "Evaluation service unavailable - assigned neutral score"))
        \/ (exists text us,
              clean user_prompt ai_response /\
              judge_returned w user_prompt ai_response text us /\
              field "rationale" verdict
              = Some (PyStr "Evaluation parsing failed - assigned neutral score"))
        \/ (exists text us judged rationale,
              clean user_prompt ai_response /\
              judge_returned w user_prompt ai_response (Some text) us /\
              json_loads text = Some (PyDict judged) /\
              judged !! "rationale" = Some rationale /\
              field "rationale" verdict = Some rationale)).
Proof.
  split; [| split].
  - intros pattern Hm. apply first_match_first_fake in Hm.
    rewrite evaluate_response_unfold, Hm. eexists. split; [reflexivity |]. reflexivity.
  - intros response text us d score rationale flag Hc Hp Hans Hpr Hj Hs Hrange Hr Hf Htr.
    rewrite (evaluate_response_parsed _ _ _ _ _ _ _ _ _ _ Hc Hp Hans Hj Hs Hrange Hr Hf).
    rewrite Hpr, Htr. cbn [negb]. eexists. split; [reflexivity |].
    cbn [field]. by rewrite lookup_insert_ne.
  - intros verdict w'. rewrite evaluate_response_unfold.
    destruct (first_fake fake_patterns _) as [pattern|] eqn:Hfake.
    { intros [= <- <-]. left. exists pattern. by rewrite first_match_first_fake. }
    apply clean_first_fake in Hfake.
    destruct (printable_call user_prompt ai_response).
    2: { intros [= <- <-]. right. left. done. }
    intros [= H <-].
    apply judge_result_cases in H
      as [-> | (response & choice & rest & us & Ho & Hch & Hu & _ & [-> | E])].
    + right. left. done.
    + right. right. left. exists (content (message choice)), us.
      split; [done |]. split; [by exists response, choice, rest |].
      unfold parse_failure_verdict. cbn [field].
      by rewrite lookup_insert_ne, lookup_insert_eq.
    + destruct E as (text & d & score & rationale & flag & Ht & Hj & _ & _ & Hr & _ & _ & ->).
      right. right. right. exists text, us, d, rationale.
      split; [done |]. split; [by exists response, choice, rest |].
      split; [done |]. split; [done |]. cbn [field]. by rewrite lookup_insert_ne.
Qed.

(** C8, where the code departs from it. Without a denylist match the judge
    is called once when the two traces before the call (lines 128 and 129)
    can be written, whatever the provider answers; when one of them cannot
    be, the call is never made and the history is left as it was. *)
Theorem judge_request_count (user_prompt ai_response : string) (w : World) :
  clean user_prompt ai_response ->
  history (snd (evaluate_response user_prompt ai_response w))
    = (if printable_call user_prompt ai_response
       then (history w ++ [judge_request user_prompt ai_response])%list
       else history w)
  /\ length (history (snd (evaluate_response user_prompt ai_response w)))
     = if printable_call user_prompt ai_response
       then S (length (history w)) else length (history w).
Proof.
  intros Hc. apply clean_first_fake in Hc.
  rewrite evaluate_response_unfold, Hc.
  destruct (printable_call user_prompt ai_response); cbn; [| done].
  split; [done |]. rewrite length_app. cbn. lia.
Qed.

(** C9. The verdict is a function of the two inputs and of the outcome of the
    judge call: two worlds, whatever their histories, in which the provider
    gives the same outcome to this call's request lead to equal verdicts. *)
Theorem verdict_deterministic (user_prompt ai_response : string) (w1 w2 : World) :
  provider w1 (history w1) (judge_request user_prompt ai_response)
    = provider w2 (history w2) (judge_request user_prompt ai_response) ->
  fst (evaluate_response user_prompt ai_response w1)
    = fst (evaluate_response user_prompt ai_response w2).
Proof.
  intros H. rewrite !evaluate_response_unfold.
  destruct (first_fake fake_patterns _); [done |].
  destruct (printable_call user_prompt ai_response); [| done].
  cbn. by rewrite H.
Qed.

(** C10, where the code departs from it. A JSON object whose [score] is the
    boolean [true], with a rationale and a boolean flag, passes the three
    checks: [True] is an instance of [int] and lies between 1 and 5. The
    verdict carries that boolean as its score when the traces can be
    written; when the flag is true and the rationale cannot be written, the
    verdict is the "parsing failed" default all the same. *)
Theorem boolean_score_outcome
    (user_prompt ai_response : string) (w : World) (response : ChatCompletion)
    (text : string) (us : Usage)
    (d : gmap string pyobj) (rationale : pyobj) (flag : bool) :
  clean user_prompt ai_response ->
  printable_call user_prompt ai_response = true ->
  judge_answered w user_prompt ai_response response (Some text) us ->
  printable_completion response (Some text) (total_tokens us) = true ->
  json_loads text = Some (PyDict d) ->
  d !! "score" = Some (PyBool true) ->
  d !! "rationale" = Some rationale ->
  d !! "hallucination_flag" = Some (PyBool flag) ->
  score_in_range (PyBool true) = true /\
  exists verdict,
    evaluate_response user_prompt ai_response w =
      (Ret verdict, sent w (judge_request user_prompt ai_response)) /\
    (rationale_traced rationale flag = true ->
     field "score" verdict = Some (PyBool true) /\
     verdict <> parse_failure_verdict (total_tokens us)) /\
    (rationale_traced rationale flag = false ->
     verdict = parse_failure_verdict (total_tokens us) /\
     field "score" verdict = Some (PyInt 3)).
Proof.
  intros Hc Hp Hans Hpr Hj Hs Hr Hf. split; [reflexivity |].
  rewrite (evaluate_response_parsed _ _ _ _ _ _ _ _ _ _ Hc Hp Hans Hj Hs eq_refl Hr Hf).
  rewrite Hpr. cbn [negb]. eexists. split; [reflexivity |].
  destruct (rationale_traced rationale flag); split; try discriminate; intros _.
  - assert (Hscore : (<["tokens" := total_tokens us]> d : gmap string pyobj) !! "score"
                     = Some (PyBool true)) by by rewrite lookup_insert_ne.
    split; [exact Hscore |].
    intros E. apply (f_equal (field "score")) in E.
    unfold parse_failure_verdict in E. cbn [field] in E.
    rewrite Hscore, lookup_insert_eq in E. discriminate E.
  - split; [done |]. unfold parse_failure_verdict. cbn [field].
    by rewrite lookup_insert_eq.
Qed.

(** C2, where the code departs from it. A judge text that decodes to a JSON
    number, boolean or [null] lacks the three fields, yet the verdict is the
    "service unavailable" default with tokens 0 and not the "parsing failed"
    default with the reported count: [in] raises a [TypeError], which only
    the outer handler catches. *)
Theorem scalar_json_reported_unavailable
    (user_prompt ai_response : string) (w : World) (text : string) (us : Usage)
    (v : pyobj) :
  clean user_prompt ai_response ->
  judge_returned w user_prompt ai_response (Some text) us ->
  json_loads text = Some v -> is_scalar v = true ->
  fst (evaluate_response user_prompt ai_response w) = Ret unavailable_verdict /\
  snd (evaluate_response user_prompt ai_response w)
    = (if printable_call user_prompt ai_response
       then sent w (judge_request user_prompt ai_response) else w) /\
  field "tokens" unavailable_verdict = Some (PyInt 0) /\
  unavailable_verdict <> parse_failure_verdict (total_tokens us).
Proof.
  intros Hc (response & choice & rest & Hprov & Hch & Ht & Hu) Hj Hv.
  apply clean_first_fake in Hc.
  rewrite evaluate_response_unfold, Hc.
  assert (Hne : unavailable_verdict <> parse_failure_verdict (total_tokens us)).
  { intros E. apply (f_equal (field "rationale")) in E.
    unfold parse_failure_verdict in E. cbn [field] in E.
    rewrite lookup_insert_ne, lookup_insert_eq in E by done. discriminate E. }
  destruct (printable_call user_prompt ai_response); cbn [fst snd]; [| done].
  rewrite Hprov. unfold judge_result. rewrite Hch, Hu, Ht.
  destruct (printable_completion _ _ _); [| done].
  by rewrite (parse_evaluation_scalar _ text _ v (json_loads_not_blank _ _ Hj) Hj Hv).
Qed.

(** The sibling paths of C2, on which the code does return the "parsing
    failed" default with the reported count, once the traces of the call and
    of the completion are written: a blank text, a text that the decoder
    rejects, a JSON object that misses a field, has a score that is no [int]
    between 1 and 5, or a flag that is no [bool], and an object that passes
    the checks but has a rationale the trace of line 176 cannot write. *)
Lemma malformed_text_gives_parse_failure
    (user_prompt ai_response : string) (w : World) (response : ChatCompletion)
    (text : option string) (us : Usage) :
  clean user_prompt ai_response ->
  printable_call user_prompt ai_response = true ->
  judge_answered w user_prompt ai_response response text us ->
  printable_completion response text (total_tokens us) = true ->
  (is_blank text = true
   \/ exists t, text = Some t /\ is_blank text = false /\
        ((json_loads t = None /\ json_loads_too_deep t = false)
         \/ exists d, json_loads t = Some (PyDict d) /\
              (d !! "score" = None \/ d !! "rationale" = None
               \/ d !! "hallucination_flag" = None
               \/ (exists score, d !! "score" = Some score /\ score_in_range score = false)
               \/ (exists flag, d !! "hallucination_flag" = Some flag
                                /\ isinstance_bool flag = false)
               \/ (exists score rationale,
                     d !! "score" = Some score /\ score_in_range score = true /\
                     d !! "rationale" = Some rationale /\
                     d !! "hallucination_flag" = Some (PyBool true) /\
                     rationale_traced rationale true = false)))) ->
  evaluate_response user_prompt ai_response w =
    (Ret (parse_failure_verdict (total_tokens us)),
     sent w (judge_request user_prompt ai_response)) /\
  history (sent w (judge_request user_prompt ai_response))
    = (history w ++ [judge_request user_prompt ai_response])%list.
Proof.
  intros Hc Hp Hans Hpr Hbad. split; [| done].
  rewrite (evaluate_response_answered _ _ _ _ _ _ Hc Hp Hans), Hpr.
  destruct Hbad as [Hb | (t & -> & Hb & [[Hj Hdeep] | (d & Hj & Hd)])].
  - by rewrite parse_evaluation_blank.
  - by rewrite parse_evaluation_decode_error, Hdeep.
  - rewrite (parse_evaluation_object _ t _ d Hb Hj).
    destruct Hd as [H | [H | [H | [(score & H & Hs) | [(flag & H & Hf) | Hd]]]]].
    + by rewrite H.
    + rewrite H. by destruct (d !! "score").
    + rewrite H. by destruct (d !! "score"), (d !! "rationale").
    + rewrite H, Hs.
      by destruct (d !! "rationale"), (d !! "hallucination_flag").
    + rewrite H, Hf.
      destruct (d !! "score") as [score|]; [| done].
      destruct (d !! "rationale"); [| done].
      by destruct (score_in_range score).
    + destruct Hd as (score & rationale & -> & -> & -> & -> & Htr).
      cbn [negb isinstance_bool bool_value]. by rewrite Htr.
Qed.

End Claims.

(** * The claims on sample interactions *)

Lemma reference_clean_ospf : @clean reference_runtime ospf_prompt ospf_answer.
Proof. apply clean_first_fake. vm_compute. reflexivity. Defined.

Lemma reference_clean_surrogate : @clean reference_runtime surrogate_prompt ospf_answer.
Proof. apply clean_first_fake. vm_compute. reflexivity. Defined.

Lemma judge_saying_returned (user_prompt ai_response text : string) (tokens : Z) :
  judge_returned (judge_saying text tokens) user_prompt ai_response (Some text)
    {| total_tokens := PyInt tokens |}.
Proof. eexists _, _, _. repeat split. Defined.

Lemma judge_saying_answered (user_prompt ai_response text : string) (tokens : Z) :
  judge_answered (judge_saying text tokens) user_prompt ai_response
    (completion (Some text) (PyInt tokens)) (Some text)
    {| total_tokens := PyInt tokens |}.
Proof. split; [reflexivity |]. split; [| reflexivity]. eexists _, _. split; reflexivity. Defined.

Lemma unprintable_failure_escapes_witness :
  exn_printable (ProviderError lone_surrogate) = false /\
  @evaluate_response reference_runtime ospf_prompt ospf_answer failing_unprintably
  = (Raise UnicodeEncodeError,
     sent failing_unprintably (judge_request ospf_prompt ospf_answer)).
Proof.
  split; [reflexivity |].
  apply (proj2 (proj1 (@unprintable_failure_escapes reference_runtime
                         ospf_prompt ospf_answer failing_unprintably))).
  split; [exact reference_clean_ospf |]. split; [reflexivity |].
  exists (ProviderError lone_surrogate). split; reflexivity.
Defined.


Lemma remote_failure_outcome_witness :
  @evaluate_response reference_runtime ospf_prompt ospf_answer timing_out
  = (Ret unavailable_verdict, sent timing_out (judge_request ospf_prompt ospf_answer))
  /\ fst (@evaluate_response reference_runtime ospf_prompt ospf_answer failing_unprintably)
     = Raise UnicodeEncodeError.
Proof.
  split.
  - exact (@remote_failure_outcome reference_runtime ospf_prompt ospf_answer timing_out
             (ProviderError "Timeout") reference_clean_ospf eq_refl).
  - exact (f_equal fst
             (@remote_failure_outcome reference_runtime ospf_prompt ospf_answer
                failing_unprintably (ProviderError lone_surrogate)
                reference_clean_ospf eq_refl)).
Defined.

Lemma parsed_verdict_outcome_witness :
  (exists verdict,
     @evaluate_response reference_runtime ospf_prompt ospf_answer
       (judge_saying well_formed_text 120) =
       (Ret verdict,
        sent (judge_saying well_formed_text 120) (judge_request ospf_prompt ospf_answer)) /\
     verdict = PyDict (<["tokens" := PyInt 120]> well_formed_object) /\
     field "score" verdict = Some (PyInt 5) /\
     field "rationale" verdict = Some (PyStr "Accurate and complete") /\
     field "hallucination_flag" verdict = Some (PyBool false) /\
     field "tokens" verdict = Some (PyInt 120))
  /\ @evaluate_response reference_runtime ospf_prompt ospf_answer
       (judge_saying surrogate_rationale_text 11) =
       (Ret (parse_failure_verdict (PyInt 11)),
        sent (judge_saying surrogate_rationale_text 11)
          (judge_request ospf_prompt ospf_answer)).
Proof.
  split.
  - destruct (@parsed_verdict_outcome reference_runtime ospf_prompt ospf_answer
                (judge_saying well_formed_text 120)
                (completion (Some well_formed_text) (PyInt 120)) well_formed_text
                {| total_tokens := PyInt 120 |} well_formed_object 5
                (PyStr "Accurate and complete") false)
      as (verdict & He & Hgood & _).
    + exact reference_clean_ospf.
    + reflexivity.
    + apply judge_saying_answered.
    + vm_compute. reflexivity.
    + vm_compute. reflexivity.
    + lia.
    + vm_compute. reflexivity.
    + vm_compute. reflexivity.
    + exists verdict. split; [exact He |]. apply Hgood; reflexivity.
  - destruct (@parsed_verdict_outcome reference_runtime ospf_prompt ospf_answer
                (judge_saying surrogate_rationale_text 11)
                (completion (Some surrogate_rationale_text) (PyInt 11))
                surrogate_rationale_text
                {| total_tokens := PyInt 11 |} surrogate_rationale_object 1
                (PyStr lone_surrogate) true)
      as (verdict & He & _ & Hbad & _).
    + exact reference_clean_ospf.
    + reflexivity.
    + apply judge_saying_answered.
    + vm_compute. reflexivity.
    + vm_compute. reflexivity.
    + lia.
    + vm_compute. reflexivity.
    + vm_compute. reflexivity.
    + destruct (Hbad eq_refl eq_refl) as (_ & Hv & _). subst verdict. exact He.
Defined.

Lemma verdict_bounds_witness :
  exists d score tokens,
    PyDict (<["tokens" := PyNone]> boolean_score_object) = PyDict d /\
    d !! "score" = Some score /\ d !! "tokens" = Some tokens /\
    ((exists n, score = PyInt n /\ 1 <= n <= 5)
     \/ (score = PyBool true /\
         exists text us judged,
           judge_returned boolean_unbilled ospf_prompt ospf_answer (Some text) us /\
           @json_loads reference_runtime text = Some (PyDict judged) /\
           judged !! "score" = Some (PyBool true))) /\
    ((history (sent boolean_unbilled (judge_request ospf_prompt ospf_answer))
      = history boolean_unbilled
      \/ exists e, judge_raised boolean_unbilled ospf_prompt ospf_answer e) ->
     tokens = PyInt 0) /\
    (tokens = PyInt 0
     \/ exists text us,
          judge_returned boolean_unbilled ospf_prompt ospf_answer text us /\
          tokens = total_tokens us).
Proof.
  apply (@verdict_bounds reference_runtime ospf_prompt ospf_answer boolean_unbilled
           (sent boolean_unbilled (judge_request ospf_prompt ospf_answer))
           (PyDict (<["tokens" := PyNone]> boolean_score_object))).
  vm_compute. reflexivity.
Defined.

(** C6 as stated fails: the judge may answer with the score [true], and the
    provider's count is copied as it is, here a negative one. *)
Lemma score_and_count_unchecked :
  ~ (forall (py : PyRuntime) (user_prompt ai_response : string) (w w' : World)
            (v : pyobj),
       evaluate_response user_prompt ai_response w = (Ret v, w') ->
       exists score tokens,
         field "score" v = Some (PyInt score) /\ 1 <= score <= 5 /\
         field "tokens" v = Some (PyInt tokens) /\ 0 <= tokens).
Proof.
  intros H.
  destruct (@evaluate_response reference_runtime ospf_prompt ospf_answer
              (judge_saying boolean_score_text (-5))) as [[v|e] w'] eqn:E.
  2: { vm_compute in E. discriminate E. }
  destruct (H _ _ _ _ _ _ E) as (score & tokens & Hs & _ & Ht & Hpos).
  vm_compute in E. injection E as Ev Ew. subst v.
  vm_compute in Ht. injection Ht as <-. lia.
Qed.

Lemma rationale_present_witness :
  exists verdict,
    @evaluate_response reference_runtime ospf_prompt ospf_answer
      (judge_saying empty_rationale_text 120) =
      (Ret verdict,
       sent (judge_saying empty_rationale_text 120) (judge_request ospf_prompt ospf_answer)) /\
    field "rationale" verdict = Some (PyStr "").
Proof.
  apply (proj1 (proj2 (@rationale_present reference_runtime ospf_prompt ospf_answer
                         (judge_saying empty_rationale_text 120)))
           (completion (Some empty_rationale_text) (PyInt 120)) empty_rationale_text
           {| total_tokens := PyInt 120 |} empty_rationale_object (PyInt 5)
           (PyStr "") false).
  - exact reference_clean_ospf.
  - reflexivity.
  - apply judge_saying_answered.
  - vm_compute. reflexivity.
  - vm_compute. reflexivity.
  - vm_compute. reflexivity.
  - reflexivity.
  - vm_compute. reflexivity.
  - vm_compute. reflexivity.
  - reflexivity.
Defined.

(** C7 as stated fails: the judge may answer with an empty rationale, and the
    verdict then carries it. *)
Lemma rationale_may_be_empty :
  ~ (forall (py : PyRuntime) (user_prompt ai_response : string) (w w' : World)
            (v : pyobj),
       evaluate_response user_prompt ai_response w = (Ret v, w') ->
       exists r, field "rationale" v = Some (PyStr r) /\ r <> "").
Proof.
  intros H.
  destruct (@evaluate_response reference_runtime ospf_prompt ospf_answer
              (judge_saying empty_rationale_text 120)) as [[v|e] w'] eqn:E.
  2: { vm_compute in E. discriminate E. }
  destruct (H _ _ _ _ _ _ E) as (r & Hr & Hne).
  vm_compute in E. injection E as Ev Ew. subst v.
  vm_compute in Hr. injection Hr as <-. by apply Hne.
Qed.

Lemma judge_request_count_witness :
  history (snd (@evaluate_response reference_runtime surrogate_prompt ospf_answer
                  (judge_saying well_formed_text 120))) = []
  /\ length (history (snd (@evaluate_response reference_runtime surrogate_prompt ospf_answer
                             (judge_saying well_formed_text 120)))) = 0%nat.
Proof.
  exact (@judge_request_count reference_runtime surrogate_prompt ospf_answer
           (judge_saying well_formed_text 120) reference_clean_surrogate).
Defined.

Lemma verdict_deterministic_witness :
  fst (@evaluate_response reference_runtime ospf_prompt ospf_answer
         (judge_saying well_formed_text 120))
  = fst (@evaluate_response reference_runtime ospf_prompt ospf_answer later_world).
Proof.
  apply (@verdict_deterministic reference_runtime ospf_prompt ospf_answer
           (judge_saying well_formed_text 120) later_world).
  reflexivity.
Defined.

Lemma boolean_score_outcome_witness :
  (exists verdict,
     @evaluate_response reference_runtime ospf_prompt ospf_answer
       (judge_saying boolean_score_text 88) =
       (Ret verdict,
        sent (judge_saying boolean_score_text 88) (judge_request ospf_prompt ospf_answer)) /\
     field "score" verdict = Some (PyBool true) /\
     verdict <> parse_failure_verdict (PyInt 88))
  /\ @evaluate_response reference_runtime ospf_prompt ospf_answer
       (judge_saying surrogate_boolean_text 11) =
       (Ret (parse_failure_verdict (PyInt 11)),
        sent (judge_saying surrogate_boolean_text 11)
          (judge_request ospf_prompt ospf_answer)).
Proof.
  split.
  - destruct (@boolean_score_outcome reference_runtime ospf_prompt ospf_answer
                (judge_saying boolean_score_text 88)
                (completion (Some boolean_score_text) (PyInt 88)) boolean_score_text
                {| total_tokens := PyInt 88 |} boolean_score_object
                (PyStr "Looks fine") false)
      as (_ & verdict & He & Hgood & _).
    + exact reference_clean_ospf.
    + reflexivity.
    + apply judge_saying_answered.
    + vm_compute. reflexivity.
    + vm_compute. reflexivity.
    + vm_compute. reflexivity.
    + vm_compute. reflexivity.
    + vm_compute. reflexivity.
    + exists verdict. split; [exact He |]. apply Hgood. reflexivity.
  - destruct (@boolean_score_outcome reference_runtime ospf_prompt ospf_answer
                (judge_saying surrogate_boolean_text 11)
                (completion (Some surrogate_boolean_text) (PyInt 11))
                surrogate_boolean_text
                {| total_tokens := PyInt 11 |} surrogate_boolean_object
                (PyStr lone_surrogate) true)
      as (_ & verdict & He & _ & Hbad).
    + exact reference_clean_ospf.
    + reflexivity.
    + apply judge_saying_answered.
    + vm_compute. reflexivity.
    + vm_compute. reflexivity.
    + vm_compute. reflexivity.
    + vm_compute. reflexivity.
    + vm_compute. reflexivity.
    + destruct (Hbad eq_refl) as (Hv & _). subst verdict. exact He.
Defined.

Lemma scalar_json_reported_unavailable_witness :
  fst (@evaluate_response reference_runtime ospf_prompt ospf_answer (judge_saying "5" 42))
    = Ret unavailable_verdict /\
  snd (@evaluate_response reference_runtime ospf_prompt ospf_answer (judge_saying "5" 42))
    = sent (judge_saying "5" 42) (judge_request ospf_prompt ospf_answer) /\
  field "tokens" unavailable_verdict = Some (PyInt 0) /\
  unavailable_verdict <> parse_failure_verdict (PyInt 42).
Proof.
  apply (@scalar_json_reported_unavailable reference_runtime ospf_prompt ospf_answer
           (judge_saying "5" 42) "5" {| total_tokens := PyInt 42 |} (PyInt 5)).
  - exact reference_clean_ospf.
  - apply judge_saying_returned.
  - vm_compute. reflexivity.
  - reflexivity.
Defined.

(** The judge answers with a text that is not JSON: the "parsing failed"
    default, with the tokens the call reported. *)
Example not_json_scenario :
  @evaluate_response reference_runtime ospf_prompt ospf_answer (judge_saying "not json" 57)
  = (Ret (PyDict
            {[ "score" := PyInt 3;
               "rationale" := PyStr "Evaluation parsing failed - assigned neutral score";
               "hallucination_flag" := PyBool false;
               "tokens" := PyInt 57 ]}),
     sent (judge_saying "not json" 57) (judge_request ospf_prompt ospf_answer)).
Proof.
  apply (@malformed_text_gives_parse_failure reference_runtime ospf_prompt ospf_answer
           (judge_saying "not json" 57) (completion (Some "not json") (PyInt 57))
           (Some "not json") {| total_tokens := PyInt 57 |}).
  - exact reference_clean_ospf.
  - reflexivity.
  - apply judge_saying_answered.
  - reflexivity.
  - right. exists "not json". repeat split. left. split; reflexivity.
Defined.

(** A JSON array or string that holds the three field names passes the
    membership test and fails at the subscript, with the same outcome as a
    scalar. *)
Example array_of_field_names :
  fst (@evaluate_response reference_runtime ospf_prompt ospf_answer
         (judge_saying (dq "[`score`, `rationale`, `hallucination_flag`]") 42))
  = Ret unavailable_verdict.
Proof. vm_compute. reflexivity. Qed.

(** ** How the two inputs are combined *)

Lemma ascii_lower_app (a b : string) :
  ascii_lower (a +:+ b) = ascii_lower a +:+ ascii_lower b.
Proof. induction a as [|c a IH]; [done |]. simpl. rewrite IH. reflexivity. Qed.

Lemma append_assoc (a b c : string) : (a +:+ b) +:+ c = a +:+ (b +:+ c).
Proof.
  induction a as [|x a IH]; [done |].
  change (String x ((a +:+ b) +:+ c) = String x (a +:+ (b +:+ c))). by rewrite IH.
Qed.

(** With ASCII case folding, a pattern that occurs in the lower-cased prompt
    or in the lower-cased response occurs in their combination. *)
Lemma occurs_in_one_input (user_prompt ai_response pattern : string) :
  In pattern fake_patterns ->
  occurs_in (ascii_lower pattern) (ascii_lower user_prompt)
  \/ occurs_in (ascii_lower pattern) (ascii_lower ai_response) ->
  @denylisted reference_runtime user_prompt ai_response.
Proof.
  intros Hin H. exists pattern. split; [done |].
  unfold combined_text. cbn [str_lower reference_runtime].
  rewrite !ascii_lower_app.
  destruct H as [(before & after & ->) | (before & after & ->)].
  - exists before, (after +:+ ascii_lower " " +:+ ascii_lower ai_response).
    by rewrite !append_assoc.
  - exists (ascii_lower user_prompt +:+ ascii_lower " " +:+ before), after.
    by rewrite !append_assoc.
Qed.

(** The combination puts one space between the inputs, so a pattern cut by
    the boundary does not occur in it. *)
Example pattern_cut_by_the_boundary :
  @clean reference_runtime "How do I configure a Let" "ort 9000 router?".
Proof. apply clean_first_fake. vm_compute. reflexivity. Qed.

(** * Further properties of [evaluate_response] *)

Section Evaluation.
Context {py : PyRuntime}.

Lemma existsb_names (name : string) (l : list pyobj) :
  existsb (fun x => match x with PyStr s => String.eqb name s | _ => false end) l = true
  <-> In (PyStr name) l.
Proof.
  rewrite existsb_exists. split.
  - intros (x & Hin & Hx). destruct x; try discriminate.
    apply String.eqb_eq in Hx. by subst.
  - intros Hin. exists (PyStr name). split; [done |]. apply String.eqb_refl.
Qed.

Lemma py_contains_sequence (v : pyobj) (name : string) :
  is_sequence v = true ->
  exists b, py_contains name v = Ret b /\ (b = true <-> names_field v name).
Proof.
  destruct v; try discriminate; intros _; cbn; eexists; (split; [reflexivity |]).
  - apply str_in_spec.
  - apply existsb_names.
Qed.

(** The judge's object may carry more entries than the three fields: once
    the traces are written, the verdict keeps every one of them, except that
    [tokens] is always the count the call reported, also when the judge wrote
    a [tokens] entry itself. *)
Theorem judge_entries_pass_through
    (user_prompt ai_response : string) (w : World) (response : ChatCompletion)
    (text : string) (us : Usage)
    (d : gmap string pyobj) (score rationale : pyobj) (flag : bool) :
  clean user_prompt ai_response ->
  printable_call user_prompt ai_response = true ->
  judge_answered w user_prompt ai_response response (Some text) us ->
  printable_completion response (Some text) (total_tokens us) = true ->
  json_loads text = Some (PyDict d) ->
  d !! "score" = Some score -> score_in_range score = true ->
  d !! "rationale" = Some rationale ->
  d !! "hallucination_flag" = Some (PyBool flag) ->
  rationale_traced rationale flag = true ->
  exists verdict,
    evaluate_response user_prompt ai_response w =
      (Ret verdict, sent w (judge_request user_prompt ai_response)) /\
    (forall key, key <> "tokens" -> field key verdict = d !! key) /\
    field "tokens" verdict = Some (total_tokens us).
Proof.
  intros Hc Hp Hans Hpr Hj Hs Hrange Hr Hf Htr.
  rewrite (evaluate_response_parsed _ _ _ _ _ _ _ _ _ _ Hc Hp Hans Hj Hs Hrange Hr Hf).
  rewrite Hpr, Htr. cbn [negb]. eexists. split; [reflexivity |]. cbn [field]. split.
  - intros key Hkey. by rewrite lookup_insert_ne.
  - by rewrite lookup_insert_eq.
Qed.

(** A completion without choices, or without a usage record, gives the
    "service unavailable" default with tokens 0, although the request went
    out and was answered. *)
Theorem malformed_completion_gives_unavailable
    (user_prompt ai_response : string) (w : World) (response : ChatCompletion) :
  clean user_prompt ai_response ->
  provider w (history w) (judge_request user_prompt ai_response) = Returned response ->
  choices response = [] \/ usage response = None ->
  fst (evaluate_response user_prompt ai_response w) = Ret unavailable_verdict /\
  snd (evaluate_response user_prompt ai_response w)
    = if printable_call user_prompt ai_response
      then sent w (judge_request user_prompt ai_response) else w.
Proof.
  intros Hc Hp Hbad. apply clean_first_fake in Hc.
  rewrite evaluate_response_unfold, Hc.
  destruct (printable_call user_prompt ai_response); cbn [fst snd]; [| done].
  rewrite Hp. unfold judge_result. split; [| done].
  destruct Hbad as [-> | Hu]; [done |]. rewrite Hu. by destruct (choices response).
Qed.

(** A judge text that decodes to a JSON array or string, once the traces of
    the call and of the completion are written: when it names all three
    fields (as elements, as substrings) the subscript raises a [TypeError]
    and the verdict is the "service unavailable" default; when it misses
    one, the verdict is the "parsing failed" default with the reported
    count. *)
Theorem sequence_json_outcome
    (user_prompt ai_response : string) (w : World) (response : ChatCompletion)
    (text : string) (us : Usage) (v : pyobj) :
  clean user_prompt ai_response ->
  printable_call user_prompt ai_response = true ->
  judge_answered w user_prompt ai_response response (Some text) us ->
  printable_completion response (Some text) (total_tokens us) = true ->
  json_loads text = Some v -> is_sequence v = true ->
  ((forall name, In name required_fields -> names_field v name) ->
   evaluate_response user_prompt ai_response w =
     (Ret unavailable_verdict, sent w (judge_request user_prompt ai_response)))
  /\ ((exists name, In name required_fields /\ ~ names_field v name) ->
      evaluate_response user_prompt ai_response w =
        (Ret (parse_failure_verdict (total_tokens us)),
         sent w (judge_request user_prompt ai_response))).
Proof.
  intros Hc Hp Hans Hpr Hj Hv.
  rewrite (evaluate_response_answered _ _ _ _ _ _ Hc Hp Hans), Hpr.
  unfold parse_evaluation, loads.
  rewrite (json_loads_not_blank _ _ Hj), Hj.
  cbn [raise_when result_bind all_in required_fields].
  destruct (py_contains_sequence v "score" Hv) as (b1 & -> & H1).
  destruct (py_contains_sequence v "rationale" Hv) as (b2 & -> & H2).
  destruct (py_contains_sequence v "hallucination_flag" Hv) as (b3 & -> & H3).
  assert (Hget : forall key, exists msg, py_getitem v key = Raise (TypeError msg)).
  { intros key. destruct v; try discriminate; cbn; eauto. }
  destruct (Hget "score") as [msg Hmsg].
  split.
  - intros Hall.
    assert (b1 = true) as -> by (apply H1, Hall; cbn; auto).
    assert (b2 = true) as -> by (apply H2, Hall; cbn; auto).
    assert (b3 = true) as -> by (apply H3, Hall; cbn; auto).
    cbn. by rewrite Hmsg.
  - intros (name & Hin & Hno).
    assert (Hsome : b1 = false \/ b2 = false \/ b3 = false).
    { destruct Hin as [<- | [<- | [<- | []]]].
      - left. destruct b1; [| done]. destruct Hno. by apply H1.
      - right. left. destruct b2; [| done]. destruct Hno. by apply H2.
      - right. right. destruct b3; [| done]. destruct Hno. by apply H3. }
    destruct b1, b2, b3; cbn; try done; by destruct Hsome as [? | [? | ?]].
Qed.

(** The function itself never flags a hallucination and never moves the score
    off 3, except through the denylist: a verdict whose flag is true, or whose
    score is not the integer 3, is the pre-check verdict of the first matching
    pattern or the judge's own object with the token count set. *)
Theorem verdict_origin
    (user_prompt ai_response : string) (w w' : World) (verdict : pyobj) :
  evaluate_response user_prompt ai_response w = (Ret verdict, w') ->
  field "hallucination_flag" verdict = Some (PyBool true)
  \/ field "score" verdict <> Some (PyInt 3) ->
  (exists pattern,
     first_match user_prompt ai_response pattern /\ verdict = precheck_verdict pattern
     /\ w' = w)
  \/ exists text us d,
       judge_returned w user_prompt ai_response (Some text) us /\
       json_loads text = Some (PyDict d) /\
       verdict = PyDict (<["tokens" := total_tokens us]> d).
Proof.
  rewrite evaluate_response_unfold.
  destruct (first_fake fake_patterns _) as [pattern|] eqn:Hf.
  { intros [= <- <-] _. left. exists pattern. by rewrite first_match_first_fake. }
  assert (Hdefault : forall t,
            ~ (field "hallucination_flag" (parse_failure_verdict t) = Some (PyBool true)
               \/ field "score" (parse_failure_verdict t) <> Some (PyInt 3))).
  { intros t. unfold parse_failure_verdict. cbn [field].
    rewrite lookup_insert_eq, !lookup_insert_ne, lookup_insert_eq by done.
    intros [H | H]; [discriminate H | by destruct H]. }
  destruct (printable_call user_prompt ai_response).
  2: { intros [= <- <-] [H | H]; [discriminate H | by destruct H]. }
  intros [= H <-] Hodd. right.
  apply judge_result_cases in H
    as [-> | (response & choice & rest & us & Ho & Hc & Hu & _ & [-> | E])].
  - destruct Hodd as [H | H]; [discriminate H | by destruct H].
  - by destruct (Hdefault (total_tokens us)).
  - destruct E as (text & d & score & rationale & flag & Ht & Hj & _ & _ & _ & _ & _ & ->).
    exists text, us, d. split; [| done]. exists response, choice, rest. done.
Qed.

(** Nothing is remembered between calls: two calls in a row, each without a
    denylist match, send one judge request each, in order and also for the
    same inputs, unless a trace before the call stops it (lines 128 and
    129). *)
Theorem two_calls_two_requests
    (prompt1 response1 prompt2 response2 : string) (w : World) :
  clean prompt1 response1 -> clean prompt2 response2 ->
  history (snd (evaluate_response prompt2 response2
                  (snd (evaluate_response prompt1 response1 w))))
  = (history w
     ++ (if printable_call prompt1 response1
         then [judge_request prompt1 response1] else [])
     ++ (if printable_call prompt2 response2
         then [judge_request prompt2 response2] else []))%list.
Proof.
  intros H1 H2. apply clean_first_fake in H1, H2.
  rewrite !evaluate_response_unfold, H1.
  destruct (printable_call prompt1 response1); cbn [snd]; rewrite H2;
    destruct (printable_call prompt2 response2); cbn;
    rewrite ?app_nil_r, <- ?app_assoc; done.
Qed.

End Evaluation.

Lemma judge_entries_pass_through_witness :
  exists verdict,
    @evaluate_response reference_runtime ospf_prompt ospf_answer
      (judge_saying extra_keys_text 75) =
      (Ret verdict,
       sent (judge_saying extra_keys_text 75) (judge_request ospf_prompt ospf_answer)) /\
    (forall key, key <> "tokens" -> field key verdict = extra_keys_object !! key) /\
    field "tokens" verdict = Some (PyInt 75).
Proof.
  apply (@judge_entries_pass_through reference_runtime ospf_prompt ospf_answer
           (judge_saying extra_keys_text 75)
           (completion (Some extra_keys_text) (PyInt 75)) extra_keys_text
           {| total_tokens := PyInt 75 |}
           extra_keys_object (PyInt 4) (PyStr "Mostly right") false).
  - exact reference_clean_ospf.
  - reflexivity.
  - apply judge_saying_answered.
  - vm_compute. reflexivity.
  - vm_compute. reflexivity.
  - vm_compute. reflexivity.
  - reflexivity.
  - vm_compute. reflexivity.
  - vm_compute. reflexivity.
  - reflexivity.
Defined.

Lemma malformed_completion_gives_unavailable_witness :
  fst (@evaluate_response reference_runtime ospf_prompt ospf_answer no_choices)
    = Ret unavailable_verdict /\
  snd (@evaluate_response reference_runtime ospf_prompt ospf_answer no_choices)
    = sent no_choices (judge_request ospf_prompt ospf_answer).
Proof.
  apply (@malformed_completion_gives_unavailable reference_runtime ospf_prompt ospf_answer
           no_choices {| choices := []; usage := Some {| total_tokens := PyInt 9 |} |}).
  - exact reference_clean_ospf.
  - reflexivity.
  - by left.
Defined.

Lemma sequence_json_outcome_witness :
  @evaluate_response reference_runtime ospf_prompt ospf_answer
    (judge_saying array_of_names_text 42) =
    (Ret unavailable_verdict,
     sent (judge_saying array_of_names_text 42) (judge_request ospf_prompt ospf_answer)).
Proof.
  apply (@sequence_json_outcome reference_runtime ospf_prompt ospf_answer
           (judge_saying array_of_names_text 42)
           (completion (Some array_of_names_text) (PyInt 42)) array_of_names_text
           {| total_tokens := PyInt 42 |}
           (PyList [PyStr "score"; PyStr "rationale"; PyStr "hallucination_flag"])).
  - exact reference_clean_ospf.
  - reflexivity.
  - apply judge_saying_answered.
  - vm_compute. reflexivity.
  - vm_compute. reflexivity.
  - reflexivity.
  - intros name [<- | [<- | [<- | []]]]; cbn; auto.
Defined.

Lemma verdict_origin_witness :
  (exists pattern,
     @first_match reference_runtime letort_prompt ospf_answer pattern /\
     precheck_verdict "letort" = precheck_verdict pattern /\ timing_out = timing_out)
  \/ exists text us d,
       judge_returned timing_out letort_prompt ospf_answer (Some text) us /\
       @json_loads reference_runtime text = Some (PyDict d) /\
       precheck_verdict "letort" = PyDict (<["tokens" := total_tokens us]> d).
Proof.
  apply (@verdict_origin reference_runtime letort_prompt ospf_answer timing_out timing_out
           (precheck_verdict "letort")).
  - reflexivity.
  - left. reflexivity.
Defined.

Lemma two_calls_two_requests_witness :
  history (snd (@evaluate_response reference_runtime ospf_prompt ospf_answer
                  (snd (@evaluate_response reference_runtime ospf_prompt ospf_answer
                          timing_out))))
  = [judge_request ospf_prompt ospf_answer; judge_request ospf_prompt ospf_answer].
Proof.
  apply (@two_calls_two_requests reference_runtime ospf_prompt ospf_answer
           ospf_prompt ospf_answer timing_out);
    exact reference_clean_ospf.
Defined.

(** * The chat endpoint *)

Section EndpointProperties.
Context {py : PyRuntime} {web : WebRuntime}.

Lemma key_present (s : Server) :
  key_missing (api_key s) = false -> forall request,
  chat_with_ai request s =
    match chat_body request s with
    | (Ret body, s') => (Ok body, s')
    | (Raise e, s') => (error_reply e, s')
    end.
Proof.
  intros H request. unfold chat_with_ai, error_reply, exn_printable. rewrite H.
  destruct (chat_body request s) as [[body|e] s']; [done |].
  rewrite print_tail by reflexivity. by destruct (piece_encodable (exn_piece e)).
Qed.

Lemma field_getitem (verdict : pyobj) (key : string) (v : pyobj) :
  field key verdict = Some v -> py_getitem verdict key = Ret v.
Proof. destruct verdict; try discriminate. cbn. by intros ->. Qed.

(** The body of the [try] once the user's completion, its polarity and the
    verdict are known. *)
Lemma chat_body_judged (request : ChatRequest.t) (s : Server) (text : string)
    (us : Usage) (polarity : float) (w' : World)
    (verdict score rationale flag tokens : pyobj) :
  chat_returned s request (Some text) us ->
  TextBlob_polarity (Some text) = Ret polarity ->
  evaluate_response (ChatRequest.prompt request) text (after_chat s request)
    = (Ret verdict, w') ->
  field "score" verdict = Some score ->
  field "rationale" verdict = Some rationale ->
  field "hallucination_flag" verdict = Some flag ->
  field "tokens" verdict = Some tokens ->
  chat_body request s =
    let chat_log :=
      chat_log_of request text us polarity verdict score rationale flag tokens in
    match commit_error (db s) (rows (db s)) chat_log with
    | Some e => (Raise e, with_world s w')
    | None =>
        match JudgmentMetadata_init score rationale flag tokens with
        | Ret judgment =>
            match int_field (total_tokens us) with
            | Ret counted =>
                (Ret {| ChatResponse.response := text;
                        ChatResponse.tokens := counted;
                        ChatResponse.sentiment := polarity;
                        ChatResponse.judgment := judgment |},
                 stored (with_world s w') chat_log)
            | Raise e => (Raise e, stored (with_world s w') chat_log)
            end
        | Raise e => (Raise e, stored (with_world s w') chat_log)
        end
    end.
Proof.
  intros (response & choice & rest & Hp & Hc & Ht & Hu) Hpol He Hs Hr Hf Htk.
  unfold chat_body, hbind, on_openai, ChatCompletion_create, pure, judge, add_and_commit.
  rewrite Hp, Hc. cbn [first_item]. rewrite Hu. cbn [getattr]. rewrite Ht, Hpol.
  unfold on_openai. cbn [openai api_key db]. unfold after_chat, sent in He. rewrite He.
  rewrite (field_getitem _ _ _ Hs), (field_getitem _ _ _ Hr),
    (field_getitem _ _ _ Hf), (field_getitem _ _ _ Htk).
  cbn [openai api_key db rows commit_error response_field].
  unfold chat_log_of, with_world, stored. cbn [openai api_key db rows commit_error].
  destruct (commit_error (db s) (rows (db s)) _); [reflexivity |].
  destruct (JudgmentMetadata_init score rationale flag tokens); [| reflexivity].
  destruct (int_field (total_tokens us)); reflexivity.
Qed.

(** The body of the [try] when [evaluate_response] raises. *)
Lemma chat_body_unjudged (request : ChatRequest.t) (s : Server) (text : string)
    (us : Usage) (polarity : float) (w' : World) (e : exn) :
  chat_returned s request (Some text) us ->
  TextBlob_polarity (Some text) = Ret polarity ->
  evaluate_response (ChatRequest.prompt request) text (after_chat s request)
    = (Raise e, w') ->
  chat_body request s = (Raise e, with_world s w').
Proof.
  intros (response & choice & rest & Hp & Hc & Ht & Hu) Hpol He.
  unfold chat_body, hbind, on_openai, ChatCompletion_create, pure, judge.
  rewrite Hp, Hc. cbn [first_item]. rewrite Hu. cbn [getattr]. rewrite Ht, Hpol.
  unfold on_openai. cbn [openai api_key db]. unfold after_chat, sent in He. by rewrite He.
Qed.

(** What every verdict holds, for the subscripts of the endpoint. *)
Lemma verdict_fields (user_prompt ai_response : string) (w w' : World) (verdict : pyobj) :
  evaluate_response user_prompt ai_response w = (Ret verdict, w') ->
  exists score rationale flag tokens,
    field "score" verdict = Some score /\
    field "rationale" verdict = Some rationale /\
    field "hallucination_flag" verdict = Some flag /\
    field "tokens" verdict = Some tokens.
Proof.
  intros H. apply evaluate_response_entries in H
    as (d & -> & [score Hs] & [rationale Hr] & [flag Hf] & [tokens Ht]).
  by exists score, rationale, flag, tokens.
Qed.

(** The one request [evaluate_response] may send. *)
Lemma evaluate_response_world (user_prompt ai_response : string) (w : World) :
  snd (evaluate_response user_prompt ai_response w) = w
  \/ snd (evaluate_response user_prompt ai_response w)
     = sent w (judge_request user_prompt ai_response).
Proof.
  rewrite evaluate_response_unfold.
  destruct (first_fake fake_patterns _); [by left |].
  destruct (printable_call user_prompt ai_response); [by right | by left].
Qed.

(** When the user's completion cannot be used, the body stops with an
    exception after the one request. *)
Lemma chat_body_cases (request : ChatRequest.t) (s : Server) :
  (exists e, chat_body request s = (Raise e, with_world s (after_chat s request)))
  \/ exists text us polarity,
       chat_returned s request (Some text) us /\
       TextBlob_polarity (Some text) = Ret polarity.
Proof.
  destruct (provider (openai s) (history (openai s))
              (chat_request (ChatRequest.prompt request))) as [response|e] eqn:Hp.
  2: { left. exists e. unfold chat_body, hbind, on_openai, ChatCompletion_create.
       by rewrite Hp. }
  destruct (choices response) as [|choice rest] eqn:Hc.
  { left. exists IndexError.
    unfold chat_body, hbind, on_openai, ChatCompletion_create, pure.
    by rewrite Hp, Hc. }
  destruct (usage response) as [us|] eqn:Hu.
  2: { left. exists AttributeError.
       unfold chat_body, hbind, on_openai, ChatCompletion_create, pure.
       by rewrite Hp, Hc, Hu. }
  destruct (TextBlob_polarity (content (message choice))) as [polarity|e] eqn:Hpol.
  2: { left. exists e.
       unfold chat_body, hbind, on_openai, ChatCompletion_create, pure.
       rewrite Hp, Hc. cbn [first_item]. rewrite Hu. cbn [getattr]. by rewrite Hpol. }
  destruct (content (message choice)) as [text|] eqn:Ht.
  - right. exists text, us, polarity. split; [| done].
    exists response, choice, rest. done.
  - left. eexists.
    unfold chat_body, hbind, on_openai, ChatCompletion_create, pure, judge.
    rewrite Hp, Hc. cbn [first_item]. rewrite Hu. cbn [getattr]. rewrite Ht, Hpol.
    reflexivity.
Qed.

(** The row is committed before the reply is validated: once the user's
    completion, its polarity and the verdict are there and the database
    commits, the row with the verdict's four entries and the whole verdict is
    stored, whether the two models of the reply then take their fields (reply
    200) or [JudgmentMetadata] or the [tokens] field refuses one (the handler's
    reply). *)
Theorem chat_commits_before_validating
    (request : ChatRequest.t) (s : Server) (text : string) (us : Usage)
    (polarity : float) (w' : World) (verdict score rationale flag tokens : pyobj) :
  key_missing (api_key s) = false ->
  chat_returned s request (Some text) us ->
  TextBlob_polarity (Some text) = Ret polarity ->
  evaluate_response (ChatRequest.prompt request) text (after_chat s request)
    = (Ret verdict, w') ->
  field "score" verdict = Some score ->
  field "rationale" verdict = Some rationale ->
  field "hallucination_flag" verdict = Some flag ->
  field "tokens" verdict = Some tokens ->
  commits s ->
  chat_with_ai request s =
    (match JudgmentMetadata_init score rationale flag tokens with
     | Ret judgment =>
         match int_field (total_tokens us) with
         | Ret counted =>
             Ok {| ChatResponse.response := text;
                   ChatResponse.tokens := counted;
                   ChatResponse.sentiment := polarity;
                   ChatResponse.judgment := judgment |}
         | Raise e => error_reply e
         end
     | Raise e => error_reply e
     end,
     stored (with_world s w')
       (chat_log_of request text us polarity verdict score rationale flag tokens)).
Proof.
  intros Hk Hret Hpol He Hs Hr Hf Ht Hcommit.
  rewrite (key_present s Hk),
    (chat_body_judged request s text us polarity w' verdict score rationale flag tokens)
    by done.
  cbv zeta. rewrite Hcommit.
  destruct (JudgmentMetadata_init score rationale flag tokens); [| done].
  by destruct (int_field (total_tokens us)).
Qed.

(** When the commit raises, the reply is the handler's reply to that
    exception and no row is stored, although the provider was asked. Only an
    exception that left [evaluate_response] before the commit takes its
    place. *)
Theorem chat_commit_failure
    (request : ChatRequest.t) (s : Server) (text : string) (us : Usage)
    (polarity : float) (e : exn) :
  key_missing (api_key s) = false ->
  chat_returned s request (Some text) us ->
  TextBlob_polarity (Some text) = Ret polarity ->
  (forall chat_log, commit_error (db s) (rows (db s)) chat_log = Some e) ->
  exists w',
    chat_with_ai request s =
      (error_reply
         match fst (evaluate_response (ChatRequest.prompt request) text
                      (after_chat s request)) with
         | Ret _ => e
         | Raise e' => e'
         end,
       with_world s w') /\
    rows (db (with_world s w')) = rows (db s) /\
    history w' <> history (openai s).
Proof.
  intros Hk Hret Hpol Hcommit.
  assert (Hhist : forall w',
            w' = after_chat s request
            \/ w' = sent (after_chat s request)
                      (judge_request (ChatRequest.prompt request) text) ->
            history w' <> history (openai s)).
  { intros w' Hw Heq. apply (f_equal length) in Heq.
    destruct Hw as [-> | ->]; unfold after_chat, sent in Heq; cbn in Heq;
      rewrite ?length_app in Heq; cbn in Heq; lia. }
  pose proof (evaluate_response_world (ChatRequest.prompt request) text
                (after_chat s request)) as Hw.
  destruct (evaluate_response (ChatRequest.prompt request) text (after_chat s request))
    as [[verdict|e'] w'] eqn:He; cbn [fst snd] in *; exists w'.
  - destruct (verdict_fields _ _ _ _ _ He)
      as (score & rationale & flag & tokens & Hs & Hr & Hf & Ht).
    rewrite (key_present s Hk),
      (chat_body_judged request s text us polarity w' verdict score rationale flag tokens)
      by done.
    cbv zeta. rewrite Hcommit. split; [done |]. split; [done |]. by apply Hhist.
  - rewrite (key_present s Hk), (chat_body_unjudged request s text us polarity w' e')
      by done.
    split; [done |]. split; [done |]. by apply Hhist.
Qed.

(** A failing judge need not fail the chat: with no denylist match and a
    judge call that raises, the row stores the "service unavailable" verdict
    and the reply is a 200 carrying it, as long as the text of the exception
    can be written. When it cannot, [evaluate_response] raises and the reply
    is a 500 with nothing stored. *)
Theorem chat_after_judge_failure
    (request : ChatRequest.t) (s : Server) (text : string) (us : Usage)
    (polarity : float) (e : exn) :
  key_missing (api_key s) = false ->
  chat_returned s request (Some text) us ->
  TextBlob_polarity (Some text) = Ret polarity ->
  clean (ChatRequest.prompt request) text ->
  printable_call (ChatRequest.prompt request) text = true ->
  judge_raised (after_chat s request) (ChatRequest.prompt request) text e ->
  commits s ->
  chat_with_ai request s =
    if exn_printable e
    then
      (match int_field (total_tokens us) with
       | Ret counted =>
           Ok {| ChatResponse.response := text;
                 ChatResponse.tokens := counted;
                 ChatResponse.sentiment := polarity;
                 ChatResponse.judgment :=
                   {| JudgmentMetadata.score := 3;
                      JudgmentMetadata.rationale :=
                        "Evaluation service unavailable - assigned neutral score";
                      JudgmentMetadata.hallucination_flag := false;
                      JudgmentMetadata.tokens_used := 0 |} |}
       | Raise e' => error_reply e'
       end,
       stored
         (with_world s
            (sent (after_chat s request)
               (judge_request (ChatRequest.prompt request) text)))
         (chat_log_of request text us polarity unavailable_verdict
            (PyInt 3) (PyStr "Evaluation service unavailable - assigned neutral score")
            (PyBool false) (PyInt 0)))
    else
      (HTTPException 500
         ("Error processing chat request: " +:+ exn_str UnicodeEncodeError),
       with_world s
         (sent (after_chat s request)
            (judge_request (ChatRequest.prompt request) text))).
Proof.
  intros Hk Hret Hpol Hc Hp He Hcommit. apply clean_first_fake in Hc. red in He.
  pose proof (evaluate_response_unfold (ChatRequest.prompt request) text
                (after_chat s request)) as Hv.
  rewrite Hc, Hp, He in Hv. cbn [judge_result] in Hv.
  rewrite (key_present s Hk).
  destruct (exn_printable e).
  - rewrite (chat_body_judged request s text us polarity _ _ _ _ _ _ Hret Hpol Hv
               eq_refl eq_refl eq_refl eq_refl).
    cbv zeta. rewrite Hcommit, JudgmentMetadata_init_typed.
    by destruct (int_field (total_tokens us)).
  - by rewrite (chat_body_unjudged request s text us polarity _ _ Hret Hpol Hv).
Qed.

(** A denylisted pair still costs the user's completion, and only that: the
    judge is not asked, the row stores the pre-check verdict, and the reply
    is a 200 with score 1 and the flag set once the [tokens] field takes the
    provider's count. *)
Theorem chat_denylisted
    (request : ChatRequest.t) (s : Server) (text : string) (us : Usage)
    (polarity : float) (pattern : string) :
  key_missing (api_key s) = false ->
  chat_returned s request (Some text) us ->
  TextBlob_polarity (Some text) = Ret polarity ->
  first_match (ChatRequest.prompt request) text pattern ->
  commits s ->
  chat_with_ai request s =
    (match int_field (total_tokens us) with
     | Ret counted =>
         Ok {| ChatResponse.response := text;
               ChatResponse.tokens := counted;
               ChatResponse.sentiment := polarity;
               ChatResponse.judgment :=
                 {| JudgmentMetadata.score := 1;
                    JudgmentMetadata.rationale := precheck_rationale pattern;
                    JudgmentMetadata.hallucination_flag := true;
                    JudgmentMetadata.tokens_used := 0 |} |}
     | Raise e => error_reply e
     end,
     stored (with_world s (after_chat s request))
       (chat_log_of request text us polarity (precheck_verdict pattern)
          (PyInt 1) (PyStr (precheck_rationale pattern)) (PyBool true) (PyInt 0)))
  /\ history (after_chat s request)
     = (history (openai s) ++ [chat_request (ChatRequest.prompt request)])%list.
Proof.
  intros Hk Hret Hpol Hm Hcommit. apply first_match_first_fake in Hm.
  split; [| done].
  assert (Hv : evaluate_response (ChatRequest.prompt request) text (after_chat s request)
               = (Ret (precheck_verdict pattern), after_chat s request)).
  { by rewrite evaluate_response_unfold, Hm. }
  rewrite (key_present s Hk),
    (chat_body_judged request s text us polarity _ _ (PyInt 1)
       (PyStr (precheck_rationale pattern)) (PyBool true) (PyInt 0) Hret Hpol Hv)
    by by vm_compute.
  cbv zeta. rewrite Hcommit, JudgmentMetadata_init_typed.
  by destruct (int_field (total_tokens us)).
Qed.

(** When the user's completion cannot be used (the call raises, the
    completion lacks choices, usage or text, or the sentiment analysis
    raises) the reply is the handler's reply to the exception, only the one
    request went out and nothing is stored. *)
Theorem chat_stops_before_judging (request : ChatRequest.t) (s : Server) :
  key_missing (api_key s) = false ->
  ~ (exists text us polarity,
       chat_returned s request (Some text) us /\
       TextBlob_polarity (Some text) = Ret polarity) ->
  exists e,
    chat_with_ai request s =
      (error_reply e, with_world s (after_chat s request)).
Proof.
  intros Hk Hno. rewrite (key_present s Hk).
  destruct (chat_body_cases request s) as [[e He] | H]; [| by destruct Hno].
  exists e. by rewrite He.
Qed.

(** What one chat can do to the server: the key stays, the provider gets the
    user's request and then at most the judge request, at most one row is
    appended and no row is touched; without a key nothing happens at all; and
    a 200 reply means its row was stored. *)
Theorem chat_effects_bounded (request : ChatRequest.t) (s : Server) :
  let r := fst (chat_with_ai request s) in
  let s' := snd (chat_with_ai request s) in
  api_key s' = api_key s /\
  (key_missing (api_key s) = true ->
   s' = s /\ r = HTTPException 500 "OpenAI API key not configured") /\
  (key_missing (api_key s) = false ->
   history (openai s')
     = (history (openai s) ++ [chat_request (ChatRequest.prompt request)])%list
   \/ exists text,
        history (openai s')
        = (history (openai s)
           ++ [chat_request (ChatRequest.prompt request);
               judge_request (ChatRequest.prompt request) text])%list) /\
  (rows (db s') = rows (db s)
   \/ exists chat_log,
        rows (db s') = (rows (db s) ++ [chat_log])%list /\
        ChatLog.prompt chat_log = ChatRequest.prompt request /\
        ChatLog.user_id chat_log = ChatRequest.user_id request) /\
  (forall body, r = Ok body ->
     exists chat_log,
       rows (db s') = (rows (db s) ++ [chat_log])%list /\
       ChatLog.response chat_log = Some (ChatResponse.response body) /\
       int_field (ChatLog.usage_tokens chat_log) = Ret (ChatResponse.tokens body) /\
       ChatLog.sentiment_score chat_log = ChatResponse.sentiment body).
Proof.
  cbv zeta. destruct (key_missing (api_key s)) eqn:Hk.
  { unfold chat_with_ai. rewrite Hk. cbn.
    repeat split; try done. by left. }
  rewrite (key_present s Hk).
  assert (Hreply : forall e body, error_reply e <> Ok body).
  { intros e body. unfold error_reply. by destruct (exn_printable e). }
  destruct (chat_body_cases request s) as [[e He] | (text & us & polarity & Hret & Hpol)].
  { rewrite He. cbn. repeat split; try done; try by left.
    intros body Hb. by destruct (Hreply e body). }
  pose proof (evaluate_response_world (ChatRequest.prompt request) text
                (after_chat s request)) as Hw.
  destruct (evaluate_response (ChatRequest.prompt request) text (after_chat s request))
    as [[verdict|e'] w'] eqn:He; cbn [snd] in Hw.
  2: { rewrite (chat_body_unjudged request s text us polarity w' e') by done. cbn.
       repeat split; try done; try by left.
       - destruct Hw as [-> | ->]; [by left |]. right. exists text.
         unfold after_chat, sent. cbn. by rewrite <- app_assoc.
       - intros body Hb. by destruct (Hreply e' body). }
  destruct (verdict_fields _ _ _ _ _ He)
    as (score & rationale & flag & tokens & Hs & Hr & Hf & Ht).
  rewrite (chat_body_judged request s text us polarity w' verdict score rationale
             flag tokens) by done.
  cbv zeta.
  assert (Hhist :
    history w'
      = (history (openai s) ++ [chat_request (ChatRequest.prompt request)])%list
    \/ exists text0,
         history w'
         = (history (openai s)
            ++ [chat_request (ChatRequest.prompt request);
                judge_request (ChatRequest.prompt request) text0])%list).
  { destruct Hw as [-> | ->]; [by left |]. right. exists text.
    unfold after_chat, sent. cbn. by rewrite <- app_assoc. }
  destruct (commit_error (db s) (rows (db s)) _) as [e|].
  { cbn. repeat split; try done; try by left.
    intros body Hb. by destruct (Hreply e body). }
  destruct (JudgmentMetadata_init score rationale flag tokens) as [judgment|e]; cbn.
  2: { repeat split; try done.
       - right. eexists. repeat split.
       - intros body Hb. by destruct (Hreply e body). }
  destruct (int_field (total_tokens us)) as [counted|e] eqn:Hcount; cbn.
  - repeat split; try done.
    + right. eexists. repeat split.
    + intros body [= <-]. eexists. repeat split. exact Hcount.
  - repeat split; try done.
    + right. eexists. repeat split.
    + intros body Hb. by destruct (Hreply e body).
Qed.

End EndpointProperties.

(** ** The endpoint on sample interactions *)

Lemma answering_chat_returned (request : ChatRequest.t) (answer : string)
    (judged : outcome) :
  chat_returned (serving (answering answer judged)) request (Some answer)
    {| total_tokens := PyInt 30 |}.
Proof. eexists _, _, _. repeat split. Defined.

Lemma chat_commits_before_validating_witness :
  @chat_with_ai reference_runtime reference_web ospf_request (serving numeric_judge) =
    (HTTPException 500
       "Error processing chat request: validation error for JudgmentMetadata",
     stored
       (with_world (serving numeric_judge)
          (sent (after_chat (serving numeric_judge) ospf_request)
             (judge_request ospf_prompt ospf_answer)))
       (chat_log_of ospf_request ospf_answer {| total_tokens := PyInt 30 |} 0%Q
          numeric_verdict (PyInt 4) (PyInt 7) (PyBool false) (PyInt 40))).
Proof.
  apply (@chat_commits_before_validating reference_runtime reference_web ospf_request
           (serving numeric_judge) ospf_answer {| total_tokens := PyInt 30 |} 0%Q
           (sent (after_chat (serving numeric_judge) ospf_request)
              (judge_request ospf_prompt ospf_answer))
           numeric_verdict (PyInt 4) (PyInt 7) (PyBool false) (PyInt 40)).
  - reflexivity.
  - apply answering_chat_returned.
  - reflexivity.
  - vm_compute. reflexivity.
  - vm_compute. reflexivity.
  - vm_compute. reflexivity.
  - vm_compute. reflexivity.
  - vm_compute. reflexivity.
  - intros chat_log. reflexivity.
Defined.

Lemma chat_commit_failure_witness :
  exists w',
    @chat_with_ai reference_runtime reference_web ospf_request
      {| api_key := Some "sk-test"; openai := judge_timing_out; db := refusing |} =
      (HTTPException 500 "Error processing chat request: OperationalError",
       with_world
         {| api_key := Some "sk-test"; openai := judge_timing_out; db := refusing |} w') /\
    rows (db (with_world
                {| api_key := Some "sk-test"; openai := judge_timing_out; db := refusing |}
                w')) = [] /\
    history w' <> [].
Proof.
  apply (@chat_commit_failure reference_runtime reference_web ospf_request
           {| api_key := Some "sk-test"; openai := judge_timing_out; db := refusing |}
           ospf_answer {| total_tokens := PyInt 30 |} 0%Q (ProviderError "OperationalError")).
  - reflexivity.
  - eexists _, _, _. repeat split.
  - reflexivity.
  - intros chat_log. reflexivity.
Defined.

Lemma chat_after_judge_failure_witness :
  @chat_with_ai reference_runtime reference_web ospf_request (serving judge_timing_out) =
    (Ok {| ChatResponse.response := ospf_answer;
           ChatResponse.tokens := 30;
           ChatResponse.sentiment := 0%Q;
           ChatResponse.judgment :=
             {| JudgmentMetadata.score := 3;
                JudgmentMetadata.rationale :=
                  "Evaluation service unavailable - assigned neutral score";
                JudgmentMetadata.hallucination_flag := false;
                JudgmentMetadata.tokens_used := 0 |} |},
     stored
       (with_world (serving judge_timing_out)
          (sent (after_chat (serving judge_timing_out) ospf_request)
             (judge_request ospf_prompt ospf_answer)))
       (chat_log_of ospf_request ospf_answer {| total_tokens := PyInt 30 |} 0%Q
          unavailable_verdict
          (PyInt 3) (PyStr "Evaluation service unavailable - assigned neutral score")
          (PyBool false) (PyInt 0)))
  /\ @chat_with_ai reference_runtime reference_web ospf_request
       (serving judge_failing_unprintably) =
     (HTTPException 500 "Error processing chat request: surrogates not allowed",
      with_world (serving judge_failing_unprintably)
        (sent (after_chat (serving judge_failing_unprintably) ospf_request)
           (judge_request ospf_prompt ospf_answer))).
Proof.
  split.
  - apply (@chat_after_judge_failure reference_runtime reference_web ospf_request
             (serving judge_timing_out) ospf_answer {| total_tokens := PyInt 30 |} 0%Q
             (ProviderError "Timeout")).
    + reflexivity.
    + apply answering_chat_returned.
    + reflexivity.
    + exact reference_clean_ospf.
    + reflexivity.
    + reflexivity.
    + intros chat_log. reflexivity.
  - apply (@chat_after_judge_failure reference_runtime reference_web ospf_request
             (serving judge_failing_unprintably) ospf_answer
             {| total_tokens := PyInt 30 |} 0%Q (ProviderError lone_surrogate)).
    + reflexivity.
    + apply answering_chat_returned.
    + reflexivity.
    + exact reference_clean_ospf.
    + reflexivity.
    + reflexivity.
    + intros chat_log. reflexivity.
Defined.

Lemma reference_letort_first :
  @first_match reference_runtime letort_prompt ospf_answer "letort".
Proof. apply first_match_first_fake. reflexivity. Defined.

Lemma chat_denylisted_witness :
  @chat_with_ai reference_runtime reference_web letort_request (serving judge_timing_out) =
    (Ok {| ChatResponse.response := ospf_answer;
           ChatResponse.tokens := 30;
           ChatResponse.sentiment := 0%Q;
           ChatResponse.judgment :=
             {| JudgmentMetadata.score := 1;
                JudgmentMetadata.rationale := precheck_rationale "letort";
                JudgmentMetadata.hallucination_flag := true;
                JudgmentMetadata.tokens_used := 0 |} |},
     stored (with_world (serving judge_timing_out)
               (after_chat (serving judge_timing_out) letort_request))
       (chat_log_of letort_request ospf_answer {| total_tokens := PyInt 30 |} 0%Q
          (precheck_verdict "letort")
          (PyInt 1) (PyStr (precheck_rationale "letort")) (PyBool true) (PyInt 0)))
  /\ history (after_chat (serving judge_timing_out) letort_request)
     = [chat_request letort_prompt].
Proof.
  apply (@chat_denylisted reference_runtime reference_web letort_request
           (serving judge_timing_out) ospf_answer {| total_tokens := PyInt 30 |} 0%Q "letort").
  - reflexivity.
  - apply answering_chat_returned.
  - reflexivity.
  - exact reference_letort_first.
  - intros chat_log. reflexivity.
Defined.

Lemma chat_stops_before_judging_witness :
  exists e,
    @chat_with_ai reference_runtime reference_web ospf_request (serving timing_out) =
      (@error_reply reference_web e,
       with_world (serving timing_out) (after_chat (serving timing_out) ospf_request)).
Proof.
  apply (@chat_stops_before_judging reference_runtime reference_web ospf_request
           (serving timing_out)).
  - reflexivity.
  - intros (text & us & polarity & (response & choice & rest & Hp & _) & _).
    discriminate Hp.
Defined.

(** * The sentiment label *)

(** The label is [Positive] above the double next to 0.3, [Negative] below
    its opposite and [Neutral] in between, both ends included; so a more
    positive polarity never gets a more negative label. *)
Theorem sentiment_label_monotone (p q : float) :
  ((three_tenths < p)%Q -> _get_sentiment_description p = "Positive") /\
  ((p < - three_tenths)%Q -> _get_sentiment_description p = "Negative") /\
  ((- three_tenths <= p)%Q /\ (p <= three_tenths)%Q ->
   _get_sentiment_description p = "Neutral") /\
  ((p <= q)%Q ->
   label_rank (_get_sentiment_description p) <= label_rank (_get_sentiment_description q)).
Proof.
  assert (Hneg : (- three_tenths < three_tenths)%Q) by reflexivity.
  unfold _get_sentiment_description. repeat split.
  - intros H. destruct (Qlt_le_dec three_tenths p) as [Hp | Hp]; [done |].
    exfalso. apply (Qlt_irrefl p). by eapply Qle_lt_trans.
  - intros H. destruct (Qlt_le_dec three_tenths p) as [Hp | Hp].
    + exfalso. apply (Qlt_irrefl p).
      apply Qlt_trans with (- three_tenths)%Q; [done |].
      by apply Qlt_trans with three_tenths.
    + destruct (Qlt_le_dec p (- three_tenths)) as [Hp' | Hp']; [done |].
      exfalso. apply (Qlt_irrefl p). by eapply Qlt_le_trans.
  - intros [Hlo Hhi]. destruct (Qlt_le_dec three_tenths p) as [Hp | Hp].
    + exfalso. apply (Qlt_irrefl p). by eapply Qle_lt_trans.
    + destruct (Qlt_le_dec p (- three_tenths)) as [Hp' | Hp']; [| done].
      exfalso. apply (Qlt_irrefl p). by eapply Qlt_le_trans.
  - intros Hpq.
    destruct (Qlt_le_dec three_tenths p) as [Hp | Hp];
      destruct (Qlt_le_dec three_tenths q) as [Hq | Hq]; cbn; try lia.
    + exfalso. apply (Qlt_irrefl three_tenths).
      eapply Qlt_le_trans; [exact Hp |]. by eapply Qle_trans.
    + destruct (Qlt_le_dec p (- three_tenths)); cbn; lia.
    + destruct (Qlt_le_dec p (- three_tenths)) as [Hp' | Hp'];
        destruct (Qlt_le_dec q (- three_tenths)) as [Hq' | Hq']; cbn; try lia.
      exfalso. apply (Qlt_irrefl q).
      eapply Qlt_le_trans; [exact Hq' |]. by eapply Qle_trans.
Qed.

(** The label of the opposite polarity is the opposite label. *)
Theorem sentiment_label_symmetric (p : float) :
  _get_sentiment_description (- p)%Q = opposite_label (_get_sentiment_description p).
Proof.
  unfold _get_sentiment_description.
  assert (Hneg : (- three_tenths < three_tenths)%Q) by reflexivity.
  destruct (Qlt_le_dec three_tenths p) as [Hp | Hp].
  - destruct (Qlt_le_dec three_tenths (- p)) as [Hn | Hn].
    + exfalso. apply (Qlt_irrefl three_tenths).
      apply Qlt_trans with p; [done |].
      apply Qlt_trans with (- three_tenths)%Q; [| done].
      rewrite <- (Qopp_involutive p). by apply Qopp_lt_compat.
    + destruct (Qlt_le_dec (- p) (- three_tenths)) as [Hn' | Hn']; [done |].
      exfalso. apply (Qlt_irrefl three_tenths).
      eapply Qlt_le_trans; [exact Hp |].
      rewrite <- (Qopp_involutive p), <- (Qopp_involutive three_tenths).
      by apply Qopp_le_compat.
  - destruct (Qlt_le_dec p (- three_tenths)) as [Hp' | Hp'].
    + destruct (Qlt_le_dec three_tenths (- p)) as [Hn | Hn]; [done |].
      exfalso. apply (Qlt_irrefl p).
      eapply Qlt_le_trans; [exact Hp' |].
      rewrite <- (Qopp_involutive p). by apply Qopp_le_compat.
    + destruct (Qlt_le_dec three_tenths (- p)) as [Hn | Hn].
      * exfalso. apply (Qlt_irrefl (- p)%Q).
        eapply Qle_lt_trans; [| exact Hn].
        rewrite <- (Qopp_involutive three_tenths). by apply Qopp_le_compat.
      * destruct (Qlt_le_dec (- p) (- three_tenths)) as [Hn' | Hn']; [| done].
        exfalso. apply (Qlt_irrefl p).
        eapply Qle_lt_trans; [exact Hp |].
        rewrite <- (Qopp_involutive p), <- (Qopp_involutive three_tenths).
        by apply Qopp_lt_compat.
Qed.

Lemma sentiment_label_monotone_witness :
  _get_sentiment_description (1 # 2)%Q = "Positive" /\
  _get_sentiment_description (- (1 # 2))%Q = "Negative" /\
  _get_sentiment_description three_tenths = "Neutral" /\
  label_rank (_get_sentiment_description (- (1 # 2))%Q) <=
  label_rank (_get_sentiment_description (1 # 2)%Q).
Proof.
  split; [| split; [| split]].
  - apply (proj1 (sentiment_label_monotone (1 # 2)%Q 0%Q)). reflexivity.
  - apply (proj1 (proj2 (sentiment_label_monotone (- (1 # 2))%Q 0%Q))). reflexivity.
  - apply (proj1 (proj2 (proj2 (sentiment_label_monotone three_tenths 0%Q)))).
    split; by vm_compute.
  - apply (proj2 (proj2 (proj2 (sentiment_label_monotone (- (1 # 2))%Q (1 # 2)%Q)))).
    by vm_compute.
Defined.

(** * The migration *)

Section MigrationProperties.
Import Migration.

Lemma fresh_lookups (columns : gmap string Column) :
  fresh columns <->
  columns !! "judgment_score" = None /\ columns !! "judgment_rationale" = None /\
  columns !! "hallucination_flag" = None /\ columns !! "judgment_tokens" = None /\
  columns !! "judgment_data" = None.
Proof.
  unfold fresh, model_judgment_columns. split.
  - intros H. repeat split; eapply H; cbn; eauto 10.
  - intros (H1 & H2 & H3 & H4 & H5) name column
      [[= <- <-] | [[= <- <-] | [[= <- <-] | [[= <- <-] | [[= <- <-] | []]]]]]; done.
Qed.

(** [upgrade] in one step. *)
Lemma upgrade_spec (schema : gmap string (gmap string Column)) :
  upgrade schema =
  match schema !! "chat_logs" with
  | None => inl (UndefinedTable "chat_logs")
  | Some columns =>
      match columns !! "judgment_score", columns !! "judgment_rationale",
            columns !! "hallucination_flag", columns !! "judgment_tokens",
            columns !! "judgment_data" with
      | None, None, None, None, None => inr (<["chat_logs" := upgraded columns]> schema)
      | Some _, _, _, _, _ => inl (DuplicateColumn "judgment_score")
      | _, Some _, _, _, _ => inl (DuplicateColumn "judgment_rationale")
      | _, _, Some _, _, _ => inl (DuplicateColumn "hallucination_flag")
      | _, _, _, Some _, _ => inl (DuplicateColumn "judgment_tokens")
      | _, _, _, _, Some _ => inl (DuplicateColumn "judgment_data")
      end
  end.
Proof.
  unfold upgrade, run, add_column, upgraded.
  destruct (schema !! "chat_logs") as [columns|]; [| done].
  destruct (columns !! "judgment_score"); [done |].
  rewrite lookup_insert_eq, lookup_insert_ne by done.
  destruct (columns !! "judgment_rationale"); [done |].
  rewrite lookup_insert_eq, !lookup_insert_ne by done.
  destruct (columns !! "hallucination_flag"); [done |].
  rewrite lookup_insert_eq, !lookup_insert_ne by done.
  destruct (columns !! "judgment_tokens"); [done |].
  rewrite lookup_insert_eq, !lookup_insert_ne by done.
  destruct (columns !! "judgment_data"); [done |].
  by rewrite !insert_insert_eq.
Qed.

Lemma upgrade_inr (schema schema' : gmap string (gmap string Column)) :
  upgrade schema = inr schema' ->
  exists columns,
    schema !! "chat_logs" = Some columns /\ fresh columns /\
    schema' = <["chat_logs" := upgraded columns]> schema.
Proof.
  rewrite upgrade_spec. intros H.
  destruct (schema !! "chat_logs") as [columns|]; [| done].
  exists columns. split; [done |]. rewrite fresh_lookups.
  destruct (columns !! "judgment_score"), (columns !! "judgment_rationale"),
    (columns !! "hallucination_flag"), (columns !! "judgment_tokens"),
    (columns !! "judgment_data"); try done.
  by injection H as <-.
Qed.

(** [upgrade] goes through exactly when the table exists and has none of the
    five columns; so running it again on its own result is refused. *)
Theorem upgrade_succeeds_iff (schema : gmap string (gmap string Column)) :
  ((exists schema', upgrade schema = inr schema') <->
   exists columns, schema !! "chat_logs" = Some columns /\ fresh columns)
  /\ forall schema',
       upgrade schema = inr schema' ->
       upgrade schema' = inl (DuplicateColumn "judgment_score").
Proof.
  split; [split |].
  - intros [schema' H]. apply upgrade_inr in H as (columns & Ht & Hf & _). eauto.
  - intros (columns & Ht & Hf). rewrite upgrade_spec, Ht.
    apply fresh_lookups in Hf as (-> & -> & -> & -> & ->). eauto.
  - intros schema' H. apply upgrade_inr in H as (columns & Ht & Hf & ->).
    rewrite upgrade_spec, lookup_insert_eq.
    assert (upgraded columns !! "judgment_score"
            = Some {| type_ := Integer; nullable := true |}) as ->
      by (unfold upgraded; by simplify_map_eq).
    reflexivity.
Qed.

(** [downgrade] undoes [upgrade]: after an upgrade that went through, the
    downgrade goes through and gives back the schema. *)
Theorem downgrade_undoes_upgrade (schema schema' : gmap string (gmap string Column)) :
  upgrade schema = inr schema' -> downgrade schema' = inr schema.
Proof.
  intros H. apply upgrade_inr in H as (columns & Ht & Hf & ->).
  apply fresh_lookups in Hf as (H1 & H2 & H3 & H4 & H5).
  unfold downgrade, run, drop_column, upgraded.
  rewrite lookup_insert_eq, lookup_insert_eq.
  rewrite delete_insert_eq, delete_id by by rewrite !lookup_insert_ne.
  rewrite insert_insert_eq, lookup_insert_eq, lookup_insert_eq.
  rewrite delete_insert_eq, delete_id by by rewrite !lookup_insert_ne.
  rewrite insert_insert_eq, lookup_insert_eq, lookup_insert_eq.
  rewrite delete_insert_eq, delete_id by by rewrite !lookup_insert_ne.
  rewrite insert_insert_eq, lookup_insert_eq, lookup_insert_eq.
  rewrite delete_insert_eq, delete_id by by rewrite !lookup_insert_ne.
  rewrite insert_insert_eq, lookup_insert_eq, lookup_insert_eq.
  rewrite delete_insert_eq, delete_id by done.
  by rewrite insert_insert_eq, insert_id.
Qed.

(** [upgrade] touches nothing else: the other tables stay as they are and
    every column the table had keeps its type and nullability. *)
Theorem upgrade_keeps_the_rest
    (schema schema' : gmap string (gmap string Column)) :
  upgrade schema = inr schema' ->
  (forall table, table <> "chat_logs" -> schema' !! table = schema !! table) /\
  exists columns columns',
    schema !! "chat_logs" = Some columns /\ schema' !! "chat_logs" = Some columns' /\
    forall name column, columns !! name = Some column -> columns' !! name = Some column.
Proof.
  intros H. apply upgrade_inr in H as (columns & Ht & Hf & ->).
  apply fresh_lookups in Hf as (H1 & H2 & H3 & H4 & H5). split.
  - intros table Hne. by rewrite lookup_insert_ne.
  - exists columns, (upgraded columns). split; [done |].
    split; [by rewrite lookup_insert_eq |].
    intros name column Hc. unfold upgraded.
    rewrite !lookup_insert_ne; [done | congruence..].
Qed.

(** After [upgrade] the table has every judgment column that [models.ChatLog]
    declares, with the declared type and nullability. *)
Theorem upgrade_matches_model (schema schema' : gmap string (gmap string Column)) :
  upgrade schema = inr schema' ->
  exists columns',
    schema' !! "chat_logs" = Some columns' /\
    forall name column,
      In (name, column) model_judgment_columns -> columns' !! name = Some column.
Proof.
  intros H. apply upgrade_inr in H as (columns & Ht & Hf & ->).
  exists (upgraded columns). split; [by rewrite lookup_insert_eq |].
  intros name column
    [[= <- <-] | [[= <- <-] | [[= <- <-] | [[= <- <-] | [[= <- <-] | []]]]]];
    unfold upgraded; by simplify_map_eq.
Qed.

End MigrationProperties.

Lemma downgrade_undoes_upgrade_witness :
  Migration.downgrade
    (<["chat_logs" := Migration.upgraded Migration.model_base_columns]>
       Migration.base_schema)
  = inr Migration.base_schema.
Proof.
  apply (downgrade_undoes_upgrade Migration.base_schema). vm_compute. reflexivity.
Defined.

Lemma upgrade_keeps_the_rest_witness :
  (forall table, table <> "chat_logs" ->
     (<["chat_logs" := Migration.upgraded Migration.model_base_columns]>
        Migration.base_schema) !! table = Migration.base_schema !! table) /\
  exists columns columns',
    Migration.base_schema !! "chat_logs" = Some columns /\
    (<["chat_logs" := Migration.upgraded Migration.model_base_columns]>
       Migration.base_schema) !! "chat_logs" = Some columns' /\
    forall name column, columns !! name = Some column -> columns' !! name = Some column.
Proof.
  apply (upgrade_keeps_the_rest Migration.base_schema). vm_compute. reflexivity.
Defined.

Lemma upgrade_matches_model_witness :
  exists columns',
    (<["chat_logs" := Migration.upgraded Migration.model_base_columns]>
       Migration.base_schema) !! "chat_logs" = Some columns' /\
    forall name column,
      In (name, column) Migration.model_judgment_columns -> columns' !! name = Some column.
Proof.
  apply (upgrade_matches_model Migration.base_schema). vm_compute. reflexivity.
Defined.
